(** * chromokin: build_genome_map.py

    A shallow embedding of [build_genome_map.py] and the properties of its
    parsing and catalog-building code.

    Python [str] values are modelled by [string]; a character [ascii]
    stands for the code point of the same number (0..255).  Python's
    [int] is [Z].  The size limit that recent interpreters put on the
    number of digits accepted by [int()] is not modelled. *)

From Stdlib Require Import ZArith Ascii String List Lia DecimalString.
From stdpp Require Import base tactics option list strings gmap sorting.


Local Open Scope Z_scope.

(** ** Exceptions and the error monad *)

(** [ValueError] is what Python raises for a failed tuple unpacking and
    for a failed [int()], [KeyError] for a missing dictionary key and
    [TypeError] for an operation on an object of the wrong type; the two
    other constructors stand for the failures of the two remote
    fetchers. *)
Inductive exn : Set :=
  ValueError | KeyError | TypeError | TransportError | DecodeError.

Inductive result (A : Type) : Type :=
| Ok (a : A)
| Raise (e : exn).
Arguments Ok {A} a.
Arguments Raise {A} e.

Global Instance result_ret : MRet result := fun _ a => Ok a.
Global Instance result_bind : MBind result := fun _ _ f m =>
  match m with Ok a => f a | Raise e => Raise e end.

Definition is_ok {A} (r : result A) : bool :=
  match r with Ok _ => true | Raise _ => false end.

(** ** Python string primitives *)

Module Py.

Definition TAB : ascii := "009"%char.
Definition LF : ascii := "010"%char.
Definition CR : ascii := "013"%char.

Definition code_in (codes : list nat) (c : ascii) : bool :=
  existsb (Nat.eqb (nat_of_ascii c)) codes.

(** [str.isspace] on one character. *)
Definition isspace : ascii -> bool :=
  code_in [9; 10; 11; 12; 13; 28; 29; 30; 31; 32; 133; 160]%nat.

(** The characters [int()] skips around the number. *)
Definition int_space : ascii -> bool :=
  code_in [9; 10; 11; 12; 13; 32; 133; 160]%nat.

(** The line boundaries of [str.splitlines]. *)
Definition is_linebreak : ascii -> bool :=
  code_in [10; 11; 12; 13; 28; 29; 30; 133]%nat.

(** [str.isdigit] on one character: the decimal digits and the
    superscripts two, three and one. *)
Definition isdigit_char : ascii -> bool :=
  code_in [48; 49; 50; 51; 52; 53; 54; 55; 56; 57; 178; 179; 185]%nat.

Definition is_empty (s : string) : bool :=
  match s with "" => true | _ => false end.

Fixpoint lstrip_by (p : ascii -> bool) (s : string) : string :=
  match s with
  | "" => ""
  | String c s' => if p c then lstrip_by p s' else s
  end.

Fixpoint rstrip_by (p : ascii -> bool) (s : string) : string :=
  match s with
  | "" => ""
  | String c s' =>
      let r := rstrip_by p s' in
      if is_empty r && p c then "" else String c r
  end.

Definition strip_by (p : ascii -> bool) (s : string) : string :=
  rstrip_by p (lstrip_by p s).

(** [s.strip()] *)
Definition strip : string -> string := strip_by isspace.

(** [s.splitlines()]; [cr] tells that the previous character was a
    carriage return, whose line feed belongs to the same boundary. *)
Fixpoint splitlines_from (cr : bool) (s : string) : list string :=
  match s with
  | "" => []
  | String c s' =>
      if cr && Ascii.eqb c LF then splitlines_from false s'
      else if is_linebreak c then "" :: splitlines_from (Ascii.eqb c CR) s'
      else match splitlines_from false s' with
           | [] => [String c ""]
           | l :: ls => String c l :: ls
           end
  end.

Definition splitlines : string -> list string := splitlines_from false.

(** [s.split(sep)] for a separator of one character. *)
Fixpoint split (sep : ascii) (s : string) : list string :=
  match s with
  | "" => [""]
  | String c s' =>
      if Ascii.eqb c sep then "" :: split sep s'
      else match split sep s' with
           | [] => [String c ""]
           | f :: fs => String c f :: fs
           end
  end.

Definition digit_val (c : ascii) : option Z :=
  let n := nat_of_ascii c in
  if (48 <=? n)%nat && (n <=? 57)%nat then Some (Z.of_nat (n - 48)) else None.

(** The digits of a decimal literal: single underscores are allowed
    between digits only. *)
Fixpoint int_digits (acc : Z) (after_digit : bool) (s : string) : option Z :=
  match s with
  | "" => if after_digit then Some acc else None
  | String c s' =>
      if Ascii.eqb c "_"%char then
        if after_digit then int_digits acc false s' else None
      else match digit_val c with
           | Some d => int_digits (10 * acc + d) true s'
           | None => None
           end
  end.

(** [int(s)] in base ten. *)
Definition int (s : string) : result Z :=
  let body := strip_by int_space s in
  let parsed :=
    match body with
    | String "+" r => int_digits 0 false r
    | String "-" r => Z.opp <$> int_digits 0 false r
    | _ => int_digits 0 false body
    end in
  match parsed with Some z => Ok z | None => Raise ValueError end.

(** [s.isdigit()] *)
Definition isdigit (s : string) : bool :=
  negb (is_empty s) && forallb isdigit_char (list_ascii_of_string s).

(** [s.startswith(p)] *)
Definition startswith (p s : string) : bool := String.prefix p s.

(** [s[n:]] *)
Fixpoint slice_from (n : nat) (s : string) : string :=
  match n, s with
  | O, _ => s
  | S n', String _ s' => slice_from n' s'
  | S _, "" => ""
  end.

(** [str(n)] for a natural number. *)
Definition str (n : nat) : string := NilEmpty.string_of_uint (Nat.to_uint n).

(** [sep.join(l)] *)
Fixpoint join (sep : string) (l : list string) : string :=
  match l with
  | [] => ""
  | [s] => s
  | s :: l' => s +:+ sep +:+ join sep l'
  end.

(** A [dict] with string keys, in insertion order: [d[k] = v] replaces
    the value of a present key in place and appends an absent one. *)
Fixpoint dict_set {V} (k : string) (v : V) (d : list (string * V))
  : list (string * V) :=
  match d with
  | [] => [(k, v)]
  | (k', v') :: d' =>
      if decide (k' = k) then (k, v) :: d' else (k', v') :: dict_set k v d'
  end.

Fixpoint dict_lookup {V} (k : string) (d : list (string * V)) : option V :=
  match d with
  | [] => None
  | (k', v') :: d' => if decide (k' = k) then Some v' else dict_lookup k d'
  end.

(** [k in d] *)
Definition dict_mem {V} (k : string) (d : list (string * V)) : bool :=
  bool_decide (is_Some (dict_lookup k d)).

(** [d[k]] *)
Definition dict_getitem {V} (d : list (string * V)) (k : string) : result V :=
  match dict_lookup k d with Some v => Ok v | None => Raise KeyError end.

(** [d.get(k, default)] *)
Definition dict_get {V} (d : list (string * V)) (k : string) (dflt : V) : V :=
  default dflt (dict_lookup k d).

End Py.

(** ** Module constants *)

Definition UCSC_BASE : string := "https://hgdownload.soe.ucsc.edu/goldenPath".

(** The dictionary [ASSEMBLY_ALIAS], in the order of its literal. *)
Definition ASSEMBLY_ALIAS : list (string * string) :=
  [("hg38", "hg38"); ("grch38", "hg38"); ("hg19", "hg19"); ("grch37", "hg19")].

(** [{f"chr{i}" for i in range(1, 23)} | {"chrX", "chrY", "chrM"}] *)
Definition CANONICAL_CHROMS : gset string :=
  list_to_set ((fun i => "chr" +:+ Py.str i) <$> seq 1 22)
  ∪ {["chrX"; "chrY"; "chrM"]}.

(** ** The sort key and [sorted] *)

(** A key is a pair of integers, compared as Python compares tuples. *)
Definition key : Type := Z * Z.

Definition key_lt (a b : key) : bool :=
  (a.1 <? b.1) || ((a.1 =? b.1) && (a.2 <? b.2)).

Definition order : list (string * Z) :=
  [("X", 23); ("Y", 24); ("M", 25); ("MT", 25)].

Definition natural_chrom_key (chrom_stripped : string) : result key :=
  if Py.isdigit chrom_stripped then
    n ← Py.int chrom_stripped; mret (0, n)
  else mret (1, Py.dict_get order chrom_stripped 100).

(** Insertion of a decorated item behind the items with a smaller key
    and before those with an equal or larger one. *)
Fixpoint insert_keyed {A} (x : key * A) (l : list (key * A)) : list (key * A) :=
  match l with
  | [] => [x]
  | y :: l' => if key_lt y.1 x.1 then y :: insert_keyed x l' else x :: l
  end.

(** The stable sort of decorated items: an item placed before another
    of the same key stays before it. *)
Fixpoint stable_sort {A} (l : list (key * A)) : list (key * A) :=
  match l with
  | [] => []
  | x :: l' => insert_keyed x (stable_sort l')
  end.

(** [sorted(l, key=f)]: the keys are computed first, one call per item
    from left to right, then the items are sorted on them, stably. *)
Definition sorted {A} (f : A -> result key) (l : list A) : result (list A) :=
  decorated ← mapM (fun x => k ← f x; mret (k, x)) l;
  mret (snd <$> stable_sort decorated).

(** ** Parsing the chromosome sizes (lines 56 to 78) *)

(** The body of the loop over the lines: the new value of [chrom_map]. *)
Definition chrom_sizes_line (chrom_map : list (string * Z)) (line : string)
  : result (list (string * Z)) :=
  if Py.is_empty (Py.strip line) then mret chrom_map
  else match Py.split Py.TAB line with
       | [chrom; size_str] =>
           if decide (chrom ∈ CANONICAL_CHROMS) then
             size ← Py.int size_str;
             let name :=
               if Py.startswith "chr" chrom then Py.slice_from 3 chrom
               else chrom in
             mret (Py.dict_set name size chrom_map)
           else mret chrom_map
       | _ => Raise ValueError
       end.

Fixpoint chrom_sizes_lines (chrom_map : list (string * Z)) (lines : list string)
  : result (list (string * Z)) :=
  match lines with
  | [] => mret chrom_map
  | line :: rest =>
      chrom_map' ← chrom_sizes_line chrom_map line;
      chrom_sizes_lines chrom_map' rest
  end.

(** The pairs [(name, size)] that the final comprehension turns into
    records, in its order. *)
Definition parse_chromosome_sizes (text : string) : result (list (string * Z)) :=
  chrom_map ← chrom_sizes_lines [] (Py.splitlines text);
  sorted (fun kv => natural_chrom_key kv.1) chrom_map.

(** ** Parsing the cytobands (lines 93 to 108) *)

Record cytoband : Type := Cytoband {
  chrom : string;
  chromStart : Z;
  chromEnd : Z;
  name : string;
  stain : string
}.

(** The body of the loop over the lines: the new value of [cytobands]. *)
Definition cytoband_line (cytobands : list cytoband) (line : string)
  : result (list cytoband) :=
  if Py.is_empty (Py.strip line) then mret cytobands
  else match Py.split Py.TAB line with
       | [chrom; start_str; end_str; name; stain] =>
           chromStart ← Py.int start_str;
           chromEnd ← Py.int end_str;
           mret (cytobands ++ [Cytoband chrom chromStart chromEnd name stain])
       | _ => Raise ValueError
       end.

Fixpoint cytoband_lines (cytobands : list cytoband) (lines : list string)
  : result (list cytoband) :=
  match lines with
  | [] => mret cytobands
  | line :: rest =>
      cytobands' ← cytoband_line cytobands line;
      cytoband_lines cytobands' rest
  end.

Definition parse_cytobands (text : string) : result (list cytoband) :=
  cytoband_lines [] (Py.splitlines text).

(** ** Objects, the heap and the remote repository *)

(** The lists that the loaders return and the records in them are
    objects of a heap, since the build lets several references to them
    exist; an address is an index of the heap, and a new object is put
    at its end.  A dictionary that is referenced once (a local, or the
    entry of an alias in the catalog) is a value. *)
Definition loc : Type := nat.

Inductive val : Type :=
| VInt (z : Z)
| VStr (s : string)
| VRef (l : loc).

Inductive obj : Type :=
| ODict (items : list (string * val))
| OList (items : list val).

(** The state of a run: the heap and the URLs requested so far. *)
Record world : Type := World {
  heap : list obj;
  requests : list string
}.

(** The two external fetchers: the response body for a URL, or the
    failure of the request. *)
Record remote : Type := Remote {
  remote_text : string -> result string;
  remote_gzip_text : string -> result string
}.

(** State and exceptions. *)
Definition M (A : Type) : Type := world -> result A * world.

Global Instance M_ret : MRet M := fun _ a w => (Ok a, w).
Global Instance M_bind : MBind M := fun _ _ f m w =>
  match m w with
  | (Ok a, w') => f a w'
  | (Raise e, w') => (Raise e, w')
  end.

Definition lift {A} (r : result A) : M A := fun w => (r, w).

Definition alloc (o : obj) : M loc := fun w =>
  (Ok (length (heap w)), World (heap w ++ [o]) (requests w)).

Definition fetch_text (net : remote) (url : string) : M string := fun w =>
  (remote_text net url, World (heap w) (requests w ++ [url])).

Definition fetch_gzip_text (net : remote) (url : string) : M string := fun w =>
  (remote_gzip_text net url, World (heap w) (requests w ++ [url])).

(** [list(v)] for a reference to a list: a new list object with the
    same items. *)
Definition list_copy (v : val) : M loc := fun w =>
  match v with
  | VRef l =>
      match heap w !! l with
      | Some (OList items) => alloc (OList items) w
      | _ => (Raise TypeError, w)
      end
  | _ => (Raise TypeError, w)
  end.

(** ** The two loaders *)

Definition chrom_sizes_url (ucsc_assembly : string) : string :=
  UCSC_BASE +:+ "/" +:+ ucsc_assembly +:+ "/bigZips/" +:+ ucsc_assembly
  +:+ ".chrom.sizes".

Definition cytoband_url (ucsc_assembly : string) : string :=
  UCSC_BASE +:+ "/" +:+ ucsc_assembly +:+ "/database/cytoBand.txt.gz".

Definition chromosome_record (kv : string * Z) : obj :=
  ODict [("chromosome", VStr kv.1); ("length", VInt kv.2)].

Definition cytoband_record (b : cytoband) : obj :=
  ODict [("chrom", VStr (chrom b)); ("chromStart", VInt (chromStart b));
         ("chromEnd", VInt (chromEnd b)); ("name", VStr (name b));
         ("stain", VStr (stain b))].

(** The records are built in the order of the list, then the list. *)
Definition alloc_list (records : list obj) : M loc :=
  refs ← mapM alloc records;
  alloc (OList (VRef <$> refs)).

Definition load_chromosomes (net : remote) (ucsc_assembly : string) : M loc :=
  text ← fetch_text net (chrom_sizes_url ucsc_assembly);
  items ← lift (parse_chromosome_sizes text);
  alloc_list (chromosome_record <$> items).

Definition load_cytobands (net : remote) (ucsc_assembly : string) : M loc :=
  text ← fetch_gzip_text net (cytoband_url ucsc_assembly);
  cytobands ← lift (parse_cytobands text);
  alloc_list (cytoband_record <$> cytobands).

(** ** The build *)

(** A dictionary of dictionaries: [result] and [cache_by_ucsc]. *)
Definition catalog : Type := list (string * list (string * val)).

(** The body of the loop over [ASSEMBLY_ALIAS.items()]. *)
Definition build_step (net : remote) (st : catalog * catalog)
  (item : string * string) : M (catalog * catalog) :=
  let '(result, cache_by_ucsc) := st in
  let '(label, ucsc) := item in
  cache_by_ucsc ←
    (if negb (Py.dict_mem ucsc cache_by_ucsc) then
       chromosomes ← load_chromosomes net ucsc;
       cytobands ← load_cytobands net ucsc;
       mret (Py.dict_set ucsc
               [("chromosomes", VRef chromosomes); ("cytobands", VRef cytobands)]
               cache_by_ucsc)
     else mret cache_by_ucsc);
  entry ← lift (Py.dict_getitem cache_by_ucsc ucsc);
  cached ← lift (Py.dict_getitem entry "chromosomes");
  chromosomes ← list_copy cached;
  entry ← lift (Py.dict_getitem cache_by_ucsc ucsc);
  cached ← lift (Py.dict_getitem entry "cytobands");
  cytobands ← list_copy cached;
  mret (Py.dict_set label
          [("chromosomes", VRef chromosomes); ("cytobands", VRef cytobands)]
          result,
        cache_by_ucsc).

Fixpoint build_loop (net : remote) (st : catalog * catalog)
  (items : list (string * string)) : M catalog :=
  match items with
  | [] => mret st.1
  | item :: rest =>
      st' ← build_step net st item;
      build_loop net st' rest
  end.

(** [build_genome_object] for a given alias dictionary. *)
Definition build_genome_object_from (net : remote)
  (aliases : list (string * string)) : M catalog :=
  build_loop net ([], []) aliases.

Definition build_genome_object (net : remote) : M catalog :=
  build_genome_object_from net ASSEMBLY_ALIAS.

(** ** Reading a catalog back from the heap *)

Definition read_record (h : list obj) (v : val) : option (list (string * val)) :=
  match v with
  | VRef l => match h !! l with Some (ODict items) => Some items | _ => None end
  | _ => None
  end.

Definition read_list (h : list obj) (v : val)
  : option (list (list (string * val))) :=
  match v with
  | VRef l =>
      match h !! l with
      | Some (OList items) => mapM (read_record h) items
      | _ => None
      end
  | _ => None
  end.

(** ** Serialization (lines 142 to 148) *)

(** The values that [json.dump] writes. *)
#[warnings="-register-all"]
Inductive json : Type :=
| JInt (z : Z)
| JStr (s : string)
| JList (items : list json)
| JDict (items : list (string * json)).

(** The backslash and the double quote. *)
Definition BACKSLASH : ascii := "092"%char.

Definition QUOTE : ascii := "034"%char.

(** The hexadecimal digit of a number below 16, in lower case. *)
Definition hex_digit (n : nat) : ascii :=
  nth n (list_ascii_of_string "0123456789abcdef") "0"%char.

(** One character of a string literal, with [ensure_ascii]. *)
Definition escape_char (c : ascii) : string :=
  let n := nat_of_ascii c in
  if (n =? 34)%nat then String BACKSLASH (String QUOTE "")
  else if (n =? 92)%nat then String BACKSLASH (String BACKSLASH "")
  else if (n =? 8)%nat then String BACKSLASH "b"
  else if (n =? 12)%nat then String BACKSLASH "f"
  else if (n =? 10)%nat then String BACKSLASH "n"
  else if (n =? 13)%nat then String BACKSLASH "r"
  else if (n =? 9)%nat then String BACKSLASH "t"
  else if (n <? 32)%nat || (126 <? n)%nat then
    String BACKSLASH
      (String "u" (String "0" (String "0"
         (String (hex_digit (n / 16)) (String (hex_digit (n mod 16)) "")))))
  else String c "".

(** The characters of a string literal. *)
Fixpoint escape (s : string) : string :=
  match s with
  | "" => ""
  | String c s' => escape_char c +:+ escape s'
  end.

(** A string, between double quotes. *)
Definition json_string (s : string) : string :=
  String QUOTE (escape s +:+ String QUOTE "").

(** An integer, in base ten. *)
Definition json_int (z : Z) : string := NilEmpty.string_of_int (Z.to_int z).

(** A new line and the indentation of a nesting level, two spaces a
    level. *)
Fixpoint spaces (n : nat) : string :=
  match n with O => "" | S n' => String " " (spaces n') end.

Definition newline_indent (level : nat) : string :=
  String Py.LF (spaces (2 * level)).

(** [json.dumps(j, indent=2)] at a nesting level. *)
Fixpoint dumps (level : nat) (j : json) : string :=
  match j with
  | JInt z => json_int z
  | JStr s => json_string s
  | JList [] => "[]"
  | JList items =>
      "[" +:+ newline_indent (S level)
      +:+ Py.join ("," +:+ newline_indent (S level)) (map (dumps (S level)) items)
      +:+ newline_indent level +:+ "]"
  | JDict [] => "{}"
  | JDict items =>
      "{" +:+ newline_indent (S level)
      +:+ Py.join ("," +:+ newline_indent (S level))
            (map (fun kv => json_string kv.1 +:+ ": " +:+ dumps (S level) kv.2) items)
      +:+ newline_indent level +:+ "}"
  end.

(** The catalog as [json.dump] finds it in the heap. *)
Definition record_json (items : list (string * val)) : option json :=
  JDict <$> mapM (fun kv : string * val =>
                    match kv.2 with
                    | VInt z => Some (kv.1, JInt z)
                    | VStr s => Some (kv.1, JStr s)
                    | VRef _ => None
                    end) items.

Definition list_json (h : list obj) (v : val) : option json :=
  records ← read_list h v; JList <$> mapM record_json records.

Definition entry_json (h : list obj) (entry : list (string * val)) : option json :=
  JDict <$> mapM (fun kv : string * val => pair kv.1 <$> list_json h kv.2) entry.

Definition catalog_json (h : list obj) (c : catalog) : option json :=
  JDict <$> mapM (fun kv : string * list (string * val) =>
                    pair kv.1 <$> entry_json h kv.2) c.

(** The text that the script writes: the build, then [json.dump] with
    an indentation of two. *)
Definition main_output (net : remote) (aliases : list (string * string))
  (w : world) : result string :=
  match build_genome_object_from net aliases w with
  | (Ok c, w') =>
      match catalog_json (heap w') c with
      | Some j => Ok (dumps 0 j)
      | None => Raise TypeError
      end
  | (Raise e, _) => Raise e
  end.

(** ** Input texts for examples *)

(** The text whose lines are the given rows, the fields of a row
    separated by tabs and every row ended by a line feed. *)
Definition tsv (rows : list (list string)) : string :=
  foldr (fun row text => Py.join (String Py.TAB "") row +:+ String Py.LF text)
    "" rows.

(** * Definitions for the statements *)

(** ** Keys and labels *)

(** [a] is not above [b]: Python's [not (b < a)] on keys. *)
Definition key_le (a b : key) : Prop := key_lt b a = false.

(** The same for decorated items. *)
Definition keyed_le {A} (x y : key * A) : Prop := key_le x.1 y.1.

(** The canonical labels, in the order of the set comprehension and of
    the set literal. *)
Definition canonical_list : list string :=
  ((fun i => "chr" +:+ Py.str i) <$> seq 1 22) ++ ["chrX"; "chrY"; "chrM"].

(** The display label of a raw label (lines 67 to 70). *)
Definition display_label (chrom : string) : string :=
  if Py.startswith "chr" chrom then Py.slice_from 3 chrom else chrom.

(** The 25 display labels. *)
Definition display_labels : list string := display_label <$> canonical_list.

(** ** Lines *)

(** What one line assigns in [chrom_map]: nothing for a blank line and
    for a label outside the canonical set. *)
Definition line_entry (line : string) : result (option (string * Z)) :=
  if Py.is_empty (Py.strip line) then mret None
  else match Py.split Py.TAB line with
       | [chrom; size_str] =>
           if decide (chrom ∈ CANONICAL_CHROMS) then
             size ← Py.int size_str; mret (Some (display_label chrom, size))
           else mret None
       | _ => Raise ValueError
       end.

(** The assignment [chrom_map[name] = size] of one entry. *)
Definition assign (chrom_map : list (string * Z)) (e : option (string * Z))
  : list (string * Z) :=
  match e with
  | Some (name, size) => Py.dict_set name size chrom_map
  | None => chrom_map
  end.

(** The values assigned to the key [n], in the order of the lines. *)
Definition assigned (n : string) (es : list (option (string * Z))) : list Z :=
  omap (fun e => e ≫= fun kv : string * Z =>
          if decide (kv.1 = n) then Some kv.2 else None) es.

(** The entries of the lines of a text, when every line is accepted. *)
Definition entries_of (text : string) (es : list (option (string * Z))) : Prop :=
  Forall2 (fun line e => line_entry line = Ok e) (Py.splitlines text) es.

(** The lines that the two loops do not skip. *)
Definition nonblank (line : string) : Prop := Py.is_empty (Py.strip line) = false.

Global Instance nonblank_dec (line : string) : Decision (nonblank line).
Proof. unfold nonblank. apply _. Defined.

(** The record [b] is the one of the line: its five fields in their
    order, the second and the third read as integers. *)
Definition band_of (line : string) (b : cytoband) : Prop :=
  exists start_str end_str,
    Py.split Py.TAB line = [chrom b; start_str; end_str; name b; stain b] /\
    Py.int start_str = Ok (chromStart b) /\ Py.int end_str = Ok (chromEnd b).

(** The literal that [int] reads starts with a minus sign. *)
Definition has_minus_sign (s : string) : bool :=
  match Py.strip_by Py.int_space s with
  | String "-" _ => true
  | _ => false
  end.

(** ** Worlds and heaps *)

(** The world after a request. *)
Definition requested (url : string) (w : world) : world :=
  World (heap w) (requests w ++ [url]).

(** The world after the allocation of some objects. *)
Definition extended (objs : list obj) (w : world) : world :=
  World (heap w ++ objs) (requests w).

(** The list object that [alloc_list] builds for records put at the
    end of the heap [h]. *)
Definition list_object (h : list obj) (records : list obj) : obj :=
  OList (VRef <$> seq (length h) (length records)).

(** ** What the build computes *)

(** The data of one assembly: the pairs of the chromosome sizes and the
    cytobands. *)
Definition assembly : Type := list (string * Z) * list cytoband.

(** The data of an assembly as the two loaders obtain them, in their
    order: the request and the parse of the chromosome sizes, then those
    of the cytobands. *)
Definition assembly_data (net : remote) (u : string) : result assembly :=
  items ← remote_text net (chrom_sizes_url u) ≫= parse_chromosome_sizes;
  bands ← remote_gzip_text net (cytoband_url u) ≫= parse_cytobands;
  mret (items, bands).

(** The catalog as data, alias by alias. *)
Fixpoint catalog_data (net : remote) (v : list (string * assembly))
  (items : list (string * string)) : result (list (string * assembly)) :=
  match items with
  | [] => mret v
  | (label, u) :: rest =>
      d ← assembly_data net u;
      catalog_data net (Py.dict_set label d v) rest
  end.

(** The two URLs of an assembly. *)
Definition urls (u : string) : list string := [chrom_sizes_url u; cytoband_url u].

(** ** The catalog in the heap *)

(** The list object at [l] holds references to the given records. *)
Definition list_at (h : list obj) (l : loc) (records : list obj) : Prop :=
  exists refs,
    h !! l = Some (OList (VRef <$> refs)) /\
    Forall2 (fun r o => h !! r = Some o) refs records.

(** The entry of an alias refers to two lists with the records of the
    data [d]. *)
Definition entry_at (h : list obj) (entry : list (string * val)) (d : assembly) : Prop :=
  exists lc lb,
    entry = [("chromosomes", VRef lc); ("cytobands", VRef lb)] /\
    list_at h lc (chromosome_record <$> d.1) /\
    list_at h lb (cytoband_record <$> d.2).

(** The catalog has the labels of [v], in its order, each with an entry
    for its data. *)
Definition catalog_at (h : list obj) (c : catalog) (v : list (string * assembly)) : Prop :=
  Forall2 (fun ce ve => ce.1 = ve.1 /\ entry_at h ce.2 ve.2) c v.

(** The addresses that the entries of a catalog refer to. *)
Definition entry_locs (entry : list (string * val)) : list loc :=
  omap (fun kv : string * val => match kv.2 with VRef l => Some l | _ => None end) entry.

(** The same for all the entries of a catalog. *)
Definition catalog_locs (c : catalog) : list loc :=
  c ≫= fun ce => entry_locs ce.2.

(** ** The loop *)

(** The two halves of the body of the loop: the cache, then the copy.
    The first half: the two loads when the assembly is not cached. *)
Definition fill_cache (net : remote) (cache_by_ucsc : catalog) (ucsc : string)
  : M catalog :=
  if negb (Py.dict_mem ucsc cache_by_ucsc) then
    chromosomes ← load_chromosomes net ucsc;
    cytobands ← load_cytobands net ucsc;
    mret (Py.dict_set ucsc
            [("chromosomes", VRef chromosomes); ("cytobands", VRef cytobands)]
            cache_by_ucsc)
  else mret cache_by_ucsc.

(** The second half: the two copies, and the entry of the alias. *)
Definition copy_entry (result cache_by_ucsc : catalog) (label ucsc : string)
  : M (catalog * catalog) :=
  entry ← lift (Py.dict_getitem cache_by_ucsc ucsc);
  cached ← lift (Py.dict_getitem entry "chromosomes");
  chromosomes ← list_copy cached;
  entry ← lift (Py.dict_getitem cache_by_ucsc ucsc);
  cached ← lift (Py.dict_getitem entry "cytobands");
  cytobands ← list_copy cached;
  mret (Py.dict_set label
          [("chromosomes", VRef chromosomes); ("cytobands", VRef cytobands)]
          result,
        cache_by_ucsc).

(** The invariant of the loop: [result] represents the data [v], every
    entry of the cache represents the data of its assembly, the lists of
    [result] are pairwise different objects, and the requests so far are
    those of the assemblies in the cache. *)
Record build_inv (net : remote) (reqs0 : list string) (st : catalog * catalog)
    (w : world) (v : list (string * assembly)) : Prop := BuildInv {
  inv_result : catalog_at (heap w) st.1 v;
  inv_cache : forall u entry, Py.dict_lookup u st.2 = Some entry ->
              exists d, assembly_data net u = Ok d /\ entry_at (heap w) entry d;
  inv_locs : NoDup (catalog_locs st.1);
  inv_bound : Forall (fun l => (l < length (heap w))%nat) (catalog_locs st.1);
  inv_keys : NoDup st.2.*1;
  inv_requests : requests w = reqs0 ++ (st.2.*1 ≫= urls)
}.

(** A remote repository that answers every request with the same two
    texts. *)
Definition constant_remote (sizes cytobands : string) : remote :=
  Remote (fun _ => Ok sizes) (fun _ => Ok cytobands).

(** The items of a dictionary object. *)
Definition dict_items (o : obj) : list (string * val) :=
  match o with ODict items => items | OList _ => [] end.

(** The object is a dictionary. *)
Definition is_dict (o : obj) : Prop :=
  match o with ODict _ => True | OList _ => False end.

(** ** The catalog as a JSON value *)

(** The record of a chromosome, of a cytoband, the entry of an assembly
    and the whole catalog, as [json.dump] sees them. *)
Definition chromosome_json (kv : string * Z) : json :=
  JDict [("chromosome", JStr kv.1); ("length", JInt kv.2)].

Definition cytoband_json (b : cytoband) : json :=
  JDict [("chrom", JStr (chrom b)); ("chromStart", JInt (chromStart b));
         ("chromEnd", JInt (chromEnd b)); ("name", JStr (name b));
         ("stain", JStr (stain b))].

Definition assembly_json (d : assembly) : json :=
  JDict [("chromosomes", JList (chromosome_json <$> d.1));
         ("cytobands", JList (cytoband_json <$> d.2))].

Definition data_json (v : list (string * assembly)) : json :=
  JDict ((fun kv : string * assembly => (kv.1, assembly_json kv.2)) <$> v).

(** The input of an assembly is malformed: one of its two texts has
    arrived and its parse fails. *)
Definition malformed_input (net : remote) (u : string) : Prop :=
  (exists text, remote_text net (chrom_sizes_url u) = Ok text /\
                is_ok (parse_chromosome_sizes text) = false) \/
  (exists text, remote_gzip_text net (cytoband_url u) = Ok text /\
                is_ok (parse_cytobands text) = false).

(** ** Definitions for the further properties *)

(** The key of a label, with a value above all keys where
    [natural_chrom_key] raises. *)
Definition label_key (n : string) : key :=
  match natural_chrom_key n with Ok k => k | Raise _ => (2, 0) end.

(** The order of the labels by their keys. *)
Definition label_le (a b : string) : Prop := key_le (label_key a) (label_key b).

Global Instance label_le_dec (a b : string) : Decision (label_le a b).
Proof. unfold label_le, key_le. apply _. Defined.



(** A line of white space only. *)
Definition all_space (line : string) : Prop :=
  Forall (fun c => Py.isspace c = true) (list_ascii_of_string line).

(** The lists of the alias [label] hold the items of the lists that
    the cache has for the assembly [u]. *)
Definition shares (h : list obj) (st : catalog * catalog) (label u : string) : Prop :=
  exists (la lb lc ld : loc) (xs ys : list val),
    Py.dict_lookup label st.1
    = Some [("chromosomes", VRef la); ("cytobands", VRef lb)] /\
    Py.dict_lookup u st.2
    = Some [("chromosomes", VRef lc); ("cytobands", VRef ld)] /\
    h !! lc = Some (OList xs) /\ h !! la = Some (OList xs) /\
    h !! ld = Some (OList ys) /\ h !! lb = Some (OList ys).

(** * Properties *)


(** ** The error monad *)

Lemma bind_Ok {A B} (f : A -> result B) (m : result A) (b : B) :
  m ≫= f = Ok b <-> exists a, m = Ok a /\ f a = Ok b.
Proof.
  destruct m as [a|e]; simpl.
  - split; [eauto | intros (a' & [= <-] & Hf); exact Hf].
  - split; [discriminate | intros (a' & [=] & _)].
Qed.

Lemma mapM_result_Ok {A B} (f : A -> result B) (l : list A) (k : list B) :
  mapM f l = Ok k <-> Forall2 (fun x y => f x = Ok y) l k.
Proof.
  revert k; induction l as [|x l IH]; intros k; simpl.
  - split; [intros [= <-]; constructor | inversion 1; reflexivity].
  - split.
    + intros (y & Hy & (k' & Hk' & [= <-])%bind_Ok)%bind_Ok.
      constructor; [exact Hy | by apply IH].
    + inversion 1 as [|? y ? k' Hy Hk']; subst.
      apply bind_Ok; exists y; split; [exact Hy|].
      apply bind_Ok; exists k'; split; [by apply IH | reflexivity].
Qed.

(** ** The order on keys and the stable sort *)

Lemma key_lt_spec (a b : key) :
  key_lt a b = true <-> (a.1 < b.1 \/ (a.1 = b.1 /\ a.2 < b.2))%Z.
Proof. unfold key_lt. destruct a, b; simpl. lia. Qed.

Lemma key_le_spec (a b : key) :
  key_le a b <-> (a.1 < b.1 \/ (a.1 = b.1 /\ a.2 <= b.2))%Z.
Proof.
  unfold key_le. rewrite <- not_true_iff_false, key_lt_spec.
  destruct a, b; simpl. lia.
Qed.

Lemma key_le_refl (a : key) : key_le a a.
Proof. apply key_le_spec. lia. Qed.

Lemma key_le_trans (a b c : key) : key_le a b -> key_le b c -> key_le a c.
Proof. rewrite !key_le_spec. lia. Qed.

Lemma key_le_total (a b : key) : key_le a b \/ key_le b a.
Proof. rewrite !key_le_spec. lia. Qed.

Lemma key_lt_le (a b : key) : key_lt a b = true -> key_le a b.
Proof. rewrite key_lt_spec, key_le_spec. lia. Qed.

Section stable_sort.
Context {A : Type}.
Implicit Types (x : key * A) (l : list (key * A)).

Lemma insert_keyed_perm x l : insert_keyed x l ≡ₚ x :: l.
Proof.
induction l as [|y l IH]; simpl; [done|].
destruct (key_lt y.1 x.1); [|done].
rewrite IH. apply Permutation_swap.
Qed.

Lemma stable_sort_perm l : stable_sort l ≡ₚ l.
Proof.
induction l as [|x l IH]; simpl; [done|].
by rewrite insert_keyed_perm, IH.
Qed.

Lemma insert_keyed_sorted x l :
StronglySorted keyed_le l -> StronglySorted keyed_le (insert_keyed x l).
Proof.
induction 1 as [|y l Hl IH Hy]; simpl.
- repeat constructor.
- destruct (key_lt y.1 x.1) eqn:Hlt.
  + constructor; [exact IH|].
    rewrite insert_keyed_perm. constructor; [|exact Hy].
    by apply key_lt_le.
  + constructor; [by constructor|].
    constructor; [exact Hlt|].
    eapply Forall_impl; [exact Hy|].
    intros z Hz. eapply key_le_trans; [exact Hlt | exact Hz].
Qed.

Lemma stable_sort_sorted l : StronglySorted keyed_le (stable_sort l).
Proof.
induction l as [|x l IH]; simpl; [constructor|].
by apply insert_keyed_sorted.
Qed.

(** Stability: the items of any one key keep their order. *)
Lemma insert_keyed_filter (k : key) x l :
StronglySorted keyed_le l ->
filter (fun y => y.1 = k) (insert_keyed x l)
= filter (fun y => y.1 = k) (x :: l).
Proof.
induction 1 as [|y l Hl IH Hy]; simpl; [done|].
destruct (key_lt y.1 x.1) eqn:Hlt; [|done].
rewrite (filter_cons _ y), IH, !(filter_cons _ x), (filter_cons _ y).
destruct (decide (y.1 = k)) as [Hyk|]; [|done].
destruct (decide (x.1 = k)) as [Hxk|]; [|done].
rewrite Hyk, Hxk in Hlt. apply key_lt_spec in Hlt. lia.
Qed.

Lemma stable_sort_stable (k : key) l :
  filter (fun y => y.1 = k) (stable_sort l) = filter (fun y => y.1 = k) l.
Proof.
  induction l as [|x l IH]; simpl; [done|].
  rewrite insert_keyed_filter by apply stable_sort_sorted.
  by rewrite !filter_cons, IH.
Qed.
End stable_sort.

(** [sorted] returns a permutation of its argument whose keys ascend. *)
Lemma sorted_Ok {A} (f : A -> result key) (l l' : list A) :
  sorted f l = Ok l' ->
  l' ≡ₚ l /\
  exists keys, Forall2 (fun x k => f x = Ok k) l' keys /\
               StronglySorted key_le keys.
Proof.
  unfold sorted. intros (dec & Hdec & [= <-])%bind_Ok.
  apply mapM_result_Ok in Hdec.
  assert (Hfst : Forall (fun d => f d.2 = Ok d.1) dec).
  { clear -Hdec. induction Hdec as [|x d l dec Hx _ IH]; constructor; [|done].
    apply bind_Ok in Hx as (k & Hk & [= <-]). exact Hk. }
  assert (Hsnd : snd <$> dec = l).
  { clear -Hdec. induction Hdec as [|x d l dec Hx _ IH]; csimpl; [done|].
    apply bind_Ok in Hx as (k & Hk & [= <-]). by f_equal. }
  split.
  - rewrite <- Hsnd. apply fmap_Permutation, stable_sort_perm.
  - exists (fst <$> stable_sort dec). split.
    + rewrite <- (stable_sort_perm dec) in Hfst.
      induction (stable_sort dec) as [|d ds IH]; simpl; [constructor|].
      inversion Hfst; subst. constructor; auto.
    + pose proof (stable_sort_sorted dec) as Hs.
      induction Hs as [|d ds _ IH Hd]; simpl; constructor; [exact IH|].
      apply Forall_fmap. exact Hd.
Qed.

(** ** Dictionaries *)

Section dict.
Context {V : Type}.
Implicit Types (d : list (string * V)) (k : string) (v : V).

Lemma dict_lookup_set k k' v d :
Py.dict_lookup k' (Py.dict_set k v d)
= if decide (k = k') then Some v else Py.dict_lookup k' d.
Proof.
induction d as [|[k0 v0] d IH]; simpl.
- repeat case_decide; congruence.
- repeat (case_decide; simpl); try congruence.
Qed.

Lemma dict_set_keys k v d :
(Py.dict_set k v d).*1 = if decide (k ∈ d.*1) then d.*1 else d.*1 ++ [k].
Proof.
induction d as [|[k0 v0] d IH]; csimpl.
- destruct (decide (k ∈ [])) as [H|]; [by apply elem_of_nil in H | done].
- destruct (decide (k0 = k)) as [->|Hne]; csimpl.
  + rewrite decide_True; [done | apply elem_of_cons; by left].
  + rewrite IH. destruct (decide (k ∈ d.*1)) as [Hin|Hnin].
    * rewrite decide_True; [done | apply elem_of_cons; by right].
    * rewrite decide_False; [done|].
      intros [?|?]%elem_of_cons; congruence.
Qed.

Lemma dict_set_NoDup k v d : NoDup d.*1 -> NoDup (Py.dict_set k v d).*1.
Proof.
intros Hd. rewrite dict_set_keys. case_decide; [done|].
apply NoDup_app. split_and!; [done| |apply NoDup_singleton].
intros x Hx ->%list_elem_of_singleton. done.
Qed.

Lemma dict_lookup_elem_of k v d :
NoDup d.*1 -> Py.dict_lookup k d = Some v <-> (k, v) ∈ d.
Proof.
induction d as [|[k0 v0] d IH]; csimpl; intros Hd.
- split; [done | by intros ?%elem_of_nil].
- apply NoDup_cons in Hd as [Hk0 Hd]. rewrite elem_of_cons.
  case_decide as Hk; subst.
  + split; [intros [= ->]; by left|].
    intros [[= ->]|Hin]; [done|].
    destruct Hk0. apply list_elem_of_fmap. by exists (k, v).
  + rewrite IH; [|done]. split; [by right|].
    intros [[= ? ?]|?]; [congruence | done].
Qed.

Lemma dict_lookup_None k d : Py.dict_lookup k d = None <-> k ∉ d.*1.
Proof.
  induction d as [|[k0 v0] d IH]; csimpl.
  - split; [intros _ ?%elem_of_nil; done | done].
  - rewrite not_elem_of_cons. case_decide; subst.
    + split; [done | intros [? _]; done].
    + rewrite IH. split; [by split | by intros [_ ?]].
Qed.
End dict.

(** ** The canonical chromosomes *)

Lemma elem_of_CANONICAL_CHROMS (chrom : string) :
  chrom ∈ CANONICAL_CHROMS <-> chrom ∈ canonical_list.
Proof.
  unfold CANONICAL_CHROMS, canonical_list.
  rewrite !elem_of_union, elem_of_list_to_set, elem_of_app, !elem_of_singleton,
    !elem_of_cons, elem_of_nil.
  tauto.
Qed.

Lemma size_CANONICAL_CHROMS : size CANONICAL_CHROMS = 25%nat.
Proof. reflexivity. Qed.

(** Every canonical label carries the prefix, and its display label has
    a key; the keys of the 25 display labels are pairwise different. *)
Lemma canonical_prefixed (chrom : string) :
  chrom ∈ CANONICAL_CHROMS -> chrom = "chr" +:+ display_label chrom.
Proof.
  rewrite elem_of_CANONICAL_CHROMS. unfold canonical_list. cbn [fmap list_fmap seq app].
  rewrite !elem_of_cons, elem_of_nil.
  intros H; repeat (destruct H as [->|H]; [reflexivity|]); destruct H.
Qed.

Lemma display_label_key (chrom : string) :
  chrom ∈ CANONICAL_CHROMS -> is_ok (natural_chrom_key (display_label chrom)) = true.
Proof.
  rewrite elem_of_CANONICAL_CHROMS. unfold canonical_list. cbn [fmap list_fmap seq app].
  rewrite !elem_of_cons, elem_of_nil.
  intros H; repeat (destruct H as [->|H]; [reflexivity|]); destruct H.
Qed.

Lemma display_labels_length : length display_labels = 25%nat.
Proof. reflexivity. Qed.

(** ** The lines of the chromosome sizes *)

Lemma chrom_sizes_line_entry (chrom_map : list (string * Z)) (line : string) :
  chrom_sizes_line chrom_map line
  = e ← line_entry line; mret (assign chrom_map e).
Proof.
  unfold chrom_sizes_line, line_entry.
  destruct (Py.is_empty (Py.strip line)); [reflexivity|].
  destruct (Py.split Py.TAB line) as [|chrom [|size_str [|? ?]]]; try reflexivity.
  case_decide; [|reflexivity].
  destruct (Py.int size_str); reflexivity.
Qed.

Lemma chrom_sizes_lines_entries (chrom_map : list (string * Z)) (lines : list string) :
  chrom_sizes_lines chrom_map lines
  = es ← mapM line_entry lines; mret (foldl assign chrom_map es).
Proof.
  revert chrom_map; induction lines as [|line lines IH]; intros chrom_map; simpl.
  - reflexivity.
  - rewrite chrom_sizes_line_entry.
    destruct (line_entry line) as [e|x]; simpl; [|reflexivity].
    rewrite IH. destruct (mapM line_entry lines); reflexivity.
Qed.

(** A line assigns [(name, size)] exactly when it is not blank, has two
    fields, the first a canonical label of display label [name], and the
    second an integer literal of value [size]. *)
Lemma line_entry_Some (line name : string) (size : Z) :
  line_entry line = Ok (Some (name, size)) <->
  Py.is_empty (Py.strip line) = false /\
  exists chrom size_str,
    Py.split Py.TAB line = [chrom; size_str] /\ chrom ∈ CANONICAL_CHROMS /\
    name = display_label chrom /\ Py.int size_str = Ok size.
Proof.
  unfold line_entry.
  destruct (Py.is_empty (Py.strip line)).
  { split; [discriminate | intros [[=] _]]. }
  destruct (Py.split Py.TAB line) as [|chrom [|size_str [|? ?]]];
    try (split; [discriminate | intros (_ & ? & ? & [=] & _)]).
  case_decide as Hc.
  - destruct (Py.int size_str) as [z|x] eqn:Hz; simpl.
    + split.
      * intros [= <- <-]. split; [done|]. by exists chrom, size_str.
      * intros (_ & c & sz & [= <- <-] & _ & -> & Hsz).
        rewrite Hsz in Hz. by injection Hz as ->.
    + split; [discriminate|].
      intros (_ & c & sz & [= <- <-] & _ & _ & Hsz). congruence.
  - split; [discriminate|].
    intros (_ & c & sz & [= <- <-] & ? & _). done.
Qed.

Section assign.
Implicit Types (m : list (string * Z)) (es : list (option (string * Z))).

Lemma assign_NoDup m e : NoDup m.*1 -> NoDup (assign m e).*1.
Proof. destruct e as [[n z]|]; simpl; [apply dict_set_NoDup | done]. Qed.

Lemma foldl_assign_NoDup m es : NoDup m.*1 -> NoDup (foldl assign m es).*1.
Proof.
revert m; induction es as [|e es IH]; intros m Hm; simpl; [done|].
by apply IH, assign_NoDup.
Qed.

Lemma elem_of_assigned n z es : z ∈ assigned n es <-> Some (n, z) ∈ es.
Proof.
unfold assigned. rewrite list_elem_of_omap. split.
- intros ([[n' z']|] & Hin & Hz); simpl in Hz; [|done].
  case_decide; simplify_eq/=. done.
- intros Hin. exists (Some (n, z)). split; [done|]. simpl.
  by rewrite decide_True.
Qed.

Lemma assigned_cons_same n z es :
assigned n (Some (n, z) :: es) = z :: assigned n es.
Proof. unfold assigned. simpl. by rewrite decide_True. Qed.

Lemma assigned_app n es1 es2 :
assigned n (es1 ++ es2) = assigned n es1 ++ assigned n es2.
Proof. apply omap_app. Qed.

(** A key of the final dictionary was there at the start or has been
    assigned; its value is the one of the last assignment. *)
Lemma foldl_assign_lookup m es (n : string) :
  Py.dict_lookup n (foldl assign m es)
  = match last (assigned n es) with
    | Some z => Some z
    | None => Py.dict_lookup n m
    end.
Proof.
  unfold assigned.
  revert m; induction es as [|e es IH]; intros m; simpl; [done|].
  rewrite IH. destruct e as [[n' z']|]; simpl.
  - rewrite dict_lookup_set.
    destruct (decide (n' = n)) as [->|Hne]; simpl.
    + rewrite last_cons. by destruct (last _).
    + done.
  - done.
Qed.
End assign.

(** ** The result of [parse_chromosome_sizes] *)

Lemma entries_labels (lines : list string) (es : list (option (string * Z))) (n : string) (z : Z) :
  Forall2 (fun line e => line_entry line = Ok e) lines es ->
  Some (n, z) ∈ es ->
  exists line, line ∈ lines /\ line_entry line = Ok (Some (n, z)).
Proof.
  induction 1 as [|line e lines es He _ IH]; intros Hin.
  - by apply elem_of_nil in Hin.
  - apply elem_of_cons in Hin as [<-|Hin].
    + exists line. split; [apply elem_of_cons; by left | done].
    + destruct (IH Hin) as (line' & ? & ?).
      exists line'. split; [apply elem_of_cons; by right | done].
Qed.

Lemma chrom_map_keys (es : list (option (string * Z))) (n : string) :
  n ∈ (foldl assign [] es).*1 -> exists z, Some (n, z) ∈ es.
Proof.
  intros Hn.
  destruct (Py.dict_lookup n (foldl assign [] es)) as [z|] eqn:Hz.
  - rewrite foldl_assign_lookup in Hz. simpl in Hz.
    destruct (last (assigned n es)) as [z'|] eqn:Hl; [|done].
    exists z'. by apply elem_of_assigned, last_Some_elem_of.
  - by apply dict_lookup_None in Hz.
Qed.

(** The sort of the items of [chrom_map] cannot fail: every key of the
    dictionary is the display label of a canonical label. *)
Lemma sorted_chrom_map (lines : list string) (es : list (option (string * Z))) :
  Forall2 (fun line e => line_entry line = Ok e) lines es ->
  exists recs,
    sorted (fun kv => natural_chrom_key kv.1) (foldl assign [] es) = Ok recs.
Proof.
  intros Hes. unfold sorted.
  assert (Hk : Forall (fun kv : string * Z => is_ok (natural_chrom_key kv.1) = true)
                 (foldl assign [] es)).
  { apply Forall_forall. intros [n z] Hin.
    destruct (chrom_map_keys es n) as (z' & Hz').
    { apply list_elem_of_fmap. by exists (n, z). }
    destruct (entries_labels _ _ _ _ Hes Hz') as (line & _ & Hline).
    apply line_entry_Some in Hline as (_ & chrom & ? & _ & Hc & -> & _).
    by apply display_label_key. }
  induction (foldl assign [] es) as [|kv m IH]; simpl; [by eexists|].
  apply Forall_cons in Hk as [Hkv Hm].
  destruct (natural_chrom_key kv.1) as [k|]; [|done]. simpl.
  destruct (IH Hm) as (recs & Hrecs).
  apply bind_Ok in Hrecs as (dec & -> & _). simpl. by eexists.
Qed.

(** The parse succeeds exactly when every line is accepted. *)
Lemma parse_chromosome_sizes_is_ok (text : string) :
  is_ok (parse_chromosome_sizes text) = true <->
  Forall (fun line => is_ok (line_entry line) = true) (Py.splitlines text).
Proof.
  unfold parse_chromosome_sizes. rewrite chrom_sizes_lines_entries.
  destruct (mapM line_entry (Py.splitlines text)) as [es|x] eqn:Hes; simpl.
  - apply mapM_result_Ok in Hes.
    destruct (sorted_chrom_map _ _ Hes) as (recs & ->). simpl.
    split; [intros _|done].
    eapply Forall2_Forall_l; [exact Hes|].
    apply Forall_true. by intros e line ->.
  - split; [done|]. intros Hall. exfalso.
    assert (exists es, mapM line_entry (Py.splitlines text) = Ok es) as [es Hes'].
    { clear Hes. induction Hall as [|line lines Hl _ [es IH]]; simpl; [by eexists|].
      destruct (line_entry line) as [e|]; [|done]. simpl. rewrite IH. by eexists. }
    congruence.
Qed.

(** A successful parse returns the items of the final [chrom_map],
    rearranged so that their keys ascend. *)
Lemma parse_chromosome_sizes_Ok (text : string) (recs : list (string * Z)) :
  parse_chromosome_sizes text = Ok recs ->
  exists es,
    entries_of text es /\
    recs ≡ₚ foldl assign [] es /\
    exists keys,
      Forall2 (fun kv k => natural_chrom_key kv.1 = Ok k) recs keys /\
      StronglySorted key_le keys.
Proof.
  unfold parse_chromosome_sizes. rewrite chrom_sizes_lines_entries.
  intros (m & (es & Hes & [= <-])%bind_Ok & Hs)%bind_Ok.
  apply mapM_result_Ok in Hes. apply sorted_Ok in Hs as [Hp Hk].
  exists es. done.
Qed.

Lemma int_error (s : string) (e : exn) : Py.int s = Raise e -> e = ValueError.
Proof. unfold Py.int. destruct (match Py.strip_by _ s with "" => _ | _ => _ end); congruence. Qed.

Lemma line_entry_error (line : string) (e : exn) :
  line_entry line = Raise e -> e = ValueError.
Proof.
  unfold line_entry.
  destruct (Py.is_empty _); [done|].
  destruct (Py.split Py.TAB line) as [|chrom [|size_str [|? ?]]]; try congruence.
  case_decide; [|done].
  destruct (Py.int size_str) eqn:Hi; [done|]. apply int_error in Hi. simpl. congruence.
Qed.

Lemma mapM_result_error {A B} (f : A -> result B) (l : list A) (e : exn) :
  mapM f l = Raise e -> exists x, x ∈ l /\ f x = Raise e.
Proof.
  induction l as [|x l IH]; simpl; [done|].
  destruct (f x) as [y|e'] eqn:Hx; simpl.
  - destruct (mapM f l) as [k|e'']; simpl; [done|]. intros [= ->].
    destruct IH as (x' & ? & ?); [done|].
    exists x'. split; [apply elem_of_cons; by right | done].
  - intros [= ->]. exists x. split; [apply elem_of_cons; by left | done].
Qed.

Lemma mapM_result_raise {A B} (f : A -> result B) (l : list A) (x : A) :
  x ∈ l -> is_ok (f x) = false -> is_ok (mapM f l) = false.
Proof.
  induction l as [|x' l IH]; simpl; intros Hin Hx.
  - by apply elem_of_nil in Hin.
  - apply elem_of_cons in Hin as [<-|Hin].
    + by destruct (f x).
    + destruct (f x'); simpl; [|done].
      specialize (IH Hin Hx). by destruct (mapM f l).
Qed.

(** The only exception of the parse is [ValueError]. *)
Lemma parse_chromosome_sizes_error (text : string) (e : exn) :
  parse_chromosome_sizes text = Raise e -> e = ValueError.
Proof.
  intros He.
  destruct (mapM line_entry (Py.splitlines text)) as [es|e'] eqn:Hes.
  - assert (is_ok (parse_chromosome_sizes text) = true) as Hok; [|by rewrite He in Hok].
    apply parse_chromosome_sizes_is_ok.
    apply mapM_result_Ok in Hes.
    eapply Forall2_Forall_l; [exact Hes|].
    apply Forall_true. by intros ? ? ->.
  - unfold parse_chromosome_sizes in He.
    rewrite chrom_sizes_lines_entries, Hes in He. simpl in He. injection He as <-.
    apply mapM_result_error in Hes as (line & _ & Hline).
    by eapply line_entry_error.
Qed.

Lemma parse_chromosome_sizes_raise (text line : string) :
  line ∈ Py.splitlines text -> is_ok (line_entry line) = false ->
  parse_chromosome_sizes text = Raise ValueError.
Proof.
  intros Hin Hline.
  destruct (parse_chromosome_sizes text) as [recs|e] eqn:Hp.
  - assert (is_ok (parse_chromosome_sizes text) = true) as Hok by by rewrite Hp.
    apply parse_chromosome_sizes_is_ok in Hok.
    eapply Forall_forall in Hok; [|exact Hin]. congruence.
  - by apply parse_chromosome_sizes_error in Hp as ->.
Qed.

(** The records of a successful parse and the assignments of the lines. *)
Lemma parse_chromosome_sizes_elem_of (text : string) (recs : list (string * Z))
    (es : list (option (string * Z))) (n : string) (z : Z) :
  entries_of text es -> recs ≡ₚ foldl assign [] es ->
  (n, z) ∈ recs <-> last (assigned n es) = Some z.
Proof.
  intros Hes Hp. rewrite Hp.
  rewrite <- dict_lookup_elem_of by (by apply foldl_assign_NoDup, NoDup_nil).
  rewrite foldl_assign_lookup. simpl.
  destruct (last (assigned n es)); split; congruence.
Qed.

Lemma display_label_inj (c1 c2 : string) :
  c1 ∈ CANONICAL_CHROMS -> c2 ∈ CANONICAL_CHROMS ->
  display_label c1 = display_label c2 -> c1 = c2.
Proof.
  intros H1%canonical_prefixed H2%canonical_prefixed Heq.
  rewrite H1, H2, Heq. reflexivity.
Qed.

(** The line that assigns a label last decides its record. *)
Lemma last_line_wins (text : string) (recs : list (string * Z))
    (l1 l2 : list string) (line chrom size_str : string) :
  parse_chromosome_sizes text = Ok recs ->
  Py.splitlines text = l1 ++ line :: l2 ->
  Py.is_empty (Py.strip line) = false ->
  Py.split Py.TAB line = [chrom; size_str] ->
  chrom ∈ CANONICAL_CHROMS ->
  (forall line' s, line' ∈ l2 -> Py.split Py.TAB line' <> [chrom; s]) ->
  exists size, Py.int size_str = Ok size /\ (display_label chrom, size) ∈ recs.
Proof.
  intros (es & Hes & Hp & _)%parse_chromosome_sizes_Ok Hl Hnb Hsp Hc Hlater.
  pose proof Hes as Hes'. unfold entries_of in Hes'. rewrite Hl in Hes'.
  apply Forall2_app_inv_l in Hes' as (es1 & es' & Hes1 & Hes' & ->).
  apply Forall2_cons_inv_l in Hes' as (e & es2 & He & Hes2 & ->).
  assert (exists size, Py.int size_str = Ok size /\ e = Some (display_label chrom, size))
    as (size & Hsize & ->).
  { unfold line_entry in He. rewrite Hnb, Hsp, decide_True in He by done.
    destruct (Py.int size_str) as [size|]; [|done].
    injection He as <-. by exists size. }
  exists size. split; [done|].
  apply (parse_chromosome_sizes_elem_of text recs _ _ _ Hes Hp).
  rewrite assigned_app.
  assert (assigned (display_label chrom) es2 = []) as Hnone.
  { destruct (assigned (display_label chrom) es2) as [|z zs] eqn:Ha; [done|].
    assert (z ∈ assigned (display_label chrom) es2) as Hz
      by (rewrite Ha; apply elem_of_cons; by left).
    apply elem_of_assigned in Hz.
    destruct (entries_labels _ _ _ _ Hes2 Hz) as (line' & Hin & Hline').
    apply line_entry_Some in Hline' as (_ & chrom' & s' & Hsp' & Hc' & Heq & _).
    apply display_label_inj in Heq; [|done..]. subst chrom'.
    by destruct (Hlater line' s' Hin). }
  rewrite assigned_cons_same, Hnone. apply last_snoc.
Qed.

Lemma parse_chromosome_sizes_labels (text : string) (recs : list (string * Z)) :
  parse_chromosome_sizes text = Ok recs ->
  NoDup recs.*1 /\ (forall n, n ∈ recs.*1 -> n ∈ display_labels).
Proof.
  intros (es & Hes & Hp & _)%parse_chromosome_sizes_Ok. split.
  - rewrite Hp. apply foldl_assign_NoDup, NoDup_nil. done.
  - intros n Hn. rewrite Hp in Hn.
    apply chrom_map_keys in Hn as (z & Hz).
    destruct (entries_labels _ _ _ _ Hes Hz) as (line & _ & Hline).
    apply line_entry_Some in Hline as (_ & chrom & ? & _ & Hc & -> & _).
    apply list_elem_of_fmap_2. by apply elem_of_CANONICAL_CHROMS.
Qed.

Lemma chrom_sizes_lines_app (chrom_map : list (string * Z)) (l1 l2 : list string) :
  chrom_sizes_lines chrom_map (l1 ++ l2)
  = chrom_map' ← chrom_sizes_lines chrom_map l1; chrom_sizes_lines chrom_map' l2.
Proof.
  revert chrom_map; induction l1 as [|line l1 IH]; intros chrom_map; simpl; [done|].
  destruct (chrom_sizes_line chrom_map line) as [m|]; simpl; [apply IH | done].
Qed.

Lemma chrom_sizes_line_skip (chrom_map : list (string * Z)) (line chrom size_str : string) :
  Py.split Py.TAB line = [chrom; size_str] -> chrom ∉ CANONICAL_CHROMS ->
  chrom_sizes_line chrom_map line = Ok chrom_map.
Proof.
  intros Hsp Hc. unfold chrom_sizes_line. rewrite Hsp, decide_False by done.
  by destruct (Py.is_empty _).
Qed.

Lemma line_entry_bad_size (line chrom size_str : string) :
  Py.is_empty (Py.strip line) = false ->
  Py.split Py.TAB line = [chrom; size_str] -> chrom ∈ CANONICAL_CHROMS ->
  is_ok (Py.int size_str) = false -> is_ok (line_entry line) = false.
Proof.
  intros Hnb Hsp Hc Hi. unfold line_entry. rewrite Hnb, Hsp, decide_True by done.
  by destruct (Py.int size_str).
Qed.

(** Every record comes from a line with its label and its length. *)
Lemma record_from_line (text : string) (recs : list (string * Z))
    (name : string) (size : Z) :
  parse_chromosome_sizes text = Ok recs -> (name, size) ∈ recs ->
  exists line size_str,
    line ∈ Py.splitlines text /\
    Py.split Py.TAB line = ["chr" +:+ name; size_str] /\
    "chr" +:+ name ∈ CANONICAL_CHROMS /\ Py.int size_str = Ok size.
Proof.
  intros Hp Hin.
  destruct (parse_chromosome_sizes_Ok _ _ Hp) as (es & Hes & Hperm & _).
  apply (parse_chromosome_sizes_elem_of text recs es) in Hin; [|done..].
  apply last_Some_elem_of, elem_of_assigned in Hin.
  destruct (entries_labels _ _ _ _ Hes Hin) as (line & Hline & Hentry).
  apply line_entry_Some in Hentry as (_ & chrom & size_str & Hsp & Hc & -> & Hi).
  exists line, size_str. by rewrite <- (canonical_prefixed chrom Hc).
Qed.

(** ** Chromosome sizes: the claims *)

(** C3. [parse_chromosome_sizes] keeps the lines whose first field is
    one of the 25 canonical labels and no others: every record comes
    from such a line, its label being the canonical label without the
    prefix "chr" and its length the value of the second field; every
    such line has a record; a two-field line with another label leaves
    [chrom_map] as it was.  The line "chr23<TAB>1000" gives no record
    and the line "chrM<TAB>16569" the record of label "M" and length
    16569. *)
Theorem C3_canonical_filter :
  (forall (text : string) (recs : list (string * Z)),
     parse_chromosome_sizes text = Ok recs ->
     (forall (name : string) (size : Z), (name, size) ∈ recs ->
        exists line size_str,
          line ∈ Py.splitlines text /\
          Py.split Py.TAB line = ["chr" +:+ name; size_str] /\
          "chr" +:+ name ∈ CANONICAL_CHROMS /\ Py.int size_str = Ok size) /\
     (forall line chrom size_str : string,
        line ∈ Py.splitlines text -> Py.is_empty (Py.strip line) = false ->
        Py.split Py.TAB line = [chrom; size_str] -> chrom ∈ CANONICAL_CHROMS ->
        exists name size, chrom = "chr" +:+ name /\ (name, size) ∈ recs)) /\
  (forall (chrom_map : list (string * Z)) (line chrom size_str : string),
     Py.split Py.TAB line = [chrom; size_str] -> chrom ∉ CANONICAL_CHROMS ->
     chrom_sizes_line chrom_map line = Ok chrom_map) /\
  size CANONICAL_CHROMS = 25%nat /\
  parse_chromosome_sizes (tsv [["chr23"; "1000"]]) = Ok [] /\
  parse_chromosome_sizes (tsv [["chrM"; "16569"]]) = Ok [("M", 16569)].
Proof.
  split_and!; [|apply chrom_sizes_line_skip|reflexivity..].
  intros text recs Hp.
  destruct (parse_chromosome_sizes_Ok _ _ Hp) as (es & Hes & Hperm & _). split.
  - intros name size Hin. by eapply record_from_line.
  - intros line chrom size_str Hin Hnb Hsp Hc.
    apply list_elem_of_split in Hin as (l1 & l2 & Hl).
    assert (exists z, z ∈ assigned (display_label chrom) es) as [z Hz].
    { unfold entries_of in Hes. rewrite Hl in Hes.
      apply Forall2_app_inv_l in Hes as (es1 & es' & _ & Hes' & ->).
      apply Forall2_cons_inv_l in Hes' as (e & es2 & He & _ & ->).
      unfold line_entry in He. rewrite Hnb, Hsp, decide_True in He by done.
      destruct (Py.int size_str) as [z|]; [|done]. injection He as <-.
      exists z. apply elem_of_assigned, elem_of_app. right.
      apply elem_of_cons. by left. }
    destruct (last (assigned (display_label chrom) es)) as [z'|] eqn:Hlast.
    + exists (display_label chrom), z'. split; [by apply canonical_prefixed|].
      by apply (parse_chromosome_sizes_elem_of text recs es).
    + apply last_None in Hlast. rewrite Hlast in Hz. by apply elem_of_nil in Hz.
Qed.

Lemma C3_witness :
  exists line size_str,
    line ∈ Py.splitlines (tsv [["chr23"; "1000"]; ["chrM"; "16569"]]) /\
    Py.split Py.TAB line = ["chr" +:+ "M"; size_str] /\
    "chr" +:+ "M" ∈ CANONICAL_CHROMS /\ Py.int size_str = Ok 16569.
Proof.
  destruct C3_canonical_filter as [H _].
  apply (H (tsv [["chr23"; "1000"]; ["chrM"; "16569"]]) [("M", 16569)]).
  - reflexivity.
  - apply elem_of_cons. by left.
Defined.

(** C6. The result of [parse_chromosome_sizes] has at most as many
    records as there are canonical labels, that is 25, no label occurs
    twice in it, and the length recorded for a label is the one of the
    last line that carries it. *)
Theorem C6_bounded_unique_last_wins (text : string) (recs : list (string * Z)) :
  parse_chromosome_sizes text = Ok recs ->
  (length recs <= size CANONICAL_CHROMS)%nat /\
  (length recs <= 25)%nat /\
  NoDup recs.*1 /\
  (forall (l1 l2 : list string) (line chrom size_str : string),
     Py.splitlines text = l1 ++ line :: l2 ->
     Py.is_empty (Py.strip line) = false ->
     Py.split Py.TAB line = [chrom; size_str] ->
     chrom ∈ CANONICAL_CHROMS ->
     (forall line' s, line' ∈ l2 -> Py.split Py.TAB line' <> [chrom; s]) ->
     exists size,
       Py.int size_str = Ok size /\ (display_label chrom, size) ∈ recs /\
       forall size', (display_label chrom, size') ∈ recs -> size' = size).
Proof.
  intros Hp. destruct (parse_chromosome_sizes_labels _ _ Hp) as [Hnd Hsub].
  assert (length recs <= 25)%nat as Hlen.
  { rewrite <- (length_fmap fst), <- display_labels_length.
    by apply submseteq_length, NoDup_submseteq. }
  split_and!; [by rewrite size_CANONICAL_CHROMS|done..|].
  intros l1 l2 line chrom size_str Hl Hnb Hsp Hc Hlater.
  destruct (last_line_wins _ _ _ _ _ _ _ Hp Hl Hnb Hsp Hc Hlater) as (size & Hi & Hin).
  exists size. split_and!; [done..|].
  intros size' Hin'.
  apply dict_lookup_elem_of in Hin, Hin'; [|done..]. congruence.
Qed.

Lemma C6_witness :
  (length [("1", 7%Z)] <= 25)%nat /\ NoDup [("1", 7%Z)].*1 /\
  exists size, Py.int "7" = Ok size /\ (display_label "chr1", size) ∈ [("1", 7%Z)].
Proof.
  destruct (C6_bounded_unique_last_wins
              (tsv [["chr1"; "5"]; ["chr9_alt"; "3"]; ["chr1"; "7"]]) [("1", 7)])
    as (_ & H1 & H2 & H3); [reflexivity|].
  split_and!; [exact H1 | exact H2 |].
  destruct (H3 ["chr1" +:+ String Py.TAB "5"; "chr9_alt" +:+ String Py.TAB "3"] []
              ("chr1" +:+ String Py.TAB "7") "chr1" "7") as (size & Hi & Hin & _).
  - reflexivity.
  - reflexivity.
  - reflexivity.
  - apply (bool_decide_unpack _). vm_compute. exact I.
  - intros line' s' Hin. by apply elem_of_nil in Hin.
  - by exists size.
Defined.

(** C10. In the loop of [parse_chromosome_sizes] the membership test
    comes after the split into two fields and before [int]: a two-field
    line whose label is not canonical is skipped whatever its second
    field is, so taking it out of the input changes nothing, while a
    line with a canonical label and a second field that is not an
    integer literal raises [ValueError], for the line alone and for any
    text that has it. *)
Theorem C10_filter_before_int :
  (forall (chrom_map : list (string * Z)) (line chrom size_str : string),
     Py.is_empty (Py.strip line) = false ->
     Py.split Py.TAB line = [chrom; size_str] ->
     chrom ∉ CANONICAL_CHROMS ->
     chrom_sizes_line chrom_map line = Ok chrom_map) /\
  (forall (chrom_map : list (string * Z)) (l1 l2 : list string)
          (line chrom size_str : string),
     Py.split Py.TAB line = [chrom; size_str] ->
     chrom ∉ CANONICAL_CHROMS ->
     chrom_sizes_lines chrom_map (l1 ++ line :: l2)
     = chrom_sizes_lines chrom_map (l1 ++ l2)) /\
  (forall (chrom_map : list (string * Z)) (line chrom size_str : string),
     Py.is_empty (Py.strip line) = false ->
     Py.split Py.TAB line = [chrom; size_str] ->
     chrom ∈ CANONICAL_CHROMS ->
     is_ok (Py.int size_str) = false ->
     chrom_sizes_line chrom_map line = Raise ValueError) /\
  (forall (text line chrom size_str : string),
     line ∈ Py.splitlines text ->
     Py.is_empty (Py.strip line) = false ->
     Py.split Py.TAB line = [chrom; size_str] ->
     chrom ∈ CANONICAL_CHROMS ->
     is_ok (Py.int size_str) = false ->
     parse_chromosome_sizes text = Raise ValueError) /\
  parse_chromosome_sizes (tsv [["chrUn_KI270302v1"; "abc"]; ["chr1"; "5"]])
  = Ok [("1", 5)] /\
  parse_chromosome_sizes (tsv [["chr1"; "abc"]]) = Raise ValueError.
Proof.
  split_and!; [| | | |reflexivity..].
  - intros chrom_map line chrom size_str _. apply chrom_sizes_line_skip.
  - intros chrom_map l1 l2 line chrom size_str Hsp Hc.
    rewrite !chrom_sizes_lines_app.
    destruct (chrom_sizes_lines chrom_map l1) as [m|]; simpl; [|done].
    by rewrite (chrom_sizes_line_skip m line chrom size_str).
  - intros chrom_map line chrom size_str Hnb Hsp Hc Hi.
    rewrite chrom_sizes_line_entry.
    pose proof (line_entry_bad_size _ _ _ Hnb Hsp Hc Hi) as Hbad.
    destruct (line_entry line) as [|e] eqn:He; [done|].
    by apply line_entry_error in He as ->.
  - intros text line chrom size_str Hin Hnb Hsp Hc Hi.
    eapply parse_chromosome_sizes_raise; [exact Hin|].
    by eapply line_entry_bad_size.
Qed.

Lemma C10_witness :
  chrom_sizes_line [("1", 5)] ("chr9_alt" +:+ String Py.TAB "12x") = Ok [("1", 5)]
  /\ chrom_sizes_line [("1", 5)] ("chr2" +:+ String Py.TAB "12x") = Raise ValueError.
Proof.
  destruct C10_filter_before_int as (Hskip & _ & Hbad & _). split.
  - apply (Hskip _ _ "chr9_alt" "12x"); [reflexivity..|].
    apply (bool_decide_unpack _). vm_compute. exact I.
  - apply (Hbad _ _ "chr2" "12x"); [reflexivity..| |reflexivity].
    apply (bool_decide_unpack _). vm_compute. exact I.
Defined.

(** C2. The records of [parse_chromosome_sizes] come in ascending
    order of [natural_chrom_key].  The key of a label of digits is
    [(0, n)] with [n] its integer value, so such labels come before all
    others and among themselves by value; the keys of "X", "Y", "M" and
    "MT" are [(1, 23)], [(1, 24)], [(1, 25)] and [(1, 25)], and the key
    of every other label is [(1, 100)].  The labels X, 2, Y, 1, M, 22
    come out as 1, 2, 22, X, Y, M. *)
Theorem C2_natural_order :
  (forall (text : string) (recs : list (string * Z)),
     parse_chromosome_sizes text = Ok recs ->
     exists keys,
       Forall2 (fun kv k => natural_chrom_key kv.1 = Ok k) recs keys /\
       StronglySorted key_le keys) /\
  (forall (s : string) (n : Z),
     Py.isdigit s = true -> Py.int s = Ok n -> natural_chrom_key s = Ok (0, n)) /\
  (forall (s t : string) (ks kt : key),
     natural_chrom_key s = Ok ks -> natural_chrom_key t = Ok kt ->
     Py.isdigit s = true -> Py.isdigit t = false -> key_lt ks kt = true) /\
  (forall (s t : string) (ks kt : key) (n m : Z),
     natural_chrom_key s = Ok ks -> natural_chrom_key t = Ok kt ->
     Py.isdigit s = true -> Py.isdigit t = true ->
     Py.int s = Ok n -> Py.int t = Ok m -> key_lt ks kt = (n <? m)) /\
  natural_chrom_key "X" = Ok (1, 23) /\
  natural_chrom_key "Y" = Ok (1, 24) /\
  natural_chrom_key "M" = Ok (1, 25) /\
  natural_chrom_key "MT" = Ok (1, 25) /\
  (forall s : string,
     Py.isdigit s = false -> s ∉ ["X"; "Y"; "M"; "MT"] ->
     natural_chrom_key s = Ok (1, 100)) /\
  sorted natural_chrom_key ["X"; "2"; "Y"; "1"; "M"; "22"]
  = Ok ["1"; "2"; "22"; "X"; "Y"; "M"] /\
  parse_chromosome_sizes
    (tsv [["chrX"; "156040895"]; ["chr2"; "242193529"]; ["chrY"; "57227415"];
          ["chr1"; "248956422"]; ["chrM"; "16569"]; ["chr22"; "50818468"]])
  = Ok [("1", 248956422); ("2", 242193529); ("22", 50818468);
        ("X", 156040895); ("Y", 57227415); ("M", 16569)].
Proof.
  split_and!; try reflexivity.
  - intros text recs (es & _ & _ & Hk)%parse_chromosome_sizes_Ok. exact Hk.
  - intros s n Hd Hi. unfold natural_chrom_key. by rewrite Hd, Hi.
  - intros s t ks kt Hs Ht Hds Hdt. unfold natural_chrom_key in Hs, Ht.
    rewrite Hds in Hs. rewrite Hdt in Ht.
    destruct (Py.int s); cbv [mret result_ret mbind result_bind] in *;
      simplify_eq/=. reflexivity.
  - intros s t ks kt n m Hs Ht Hds Hdt Hn Hm. unfold natural_chrom_key in Hs, Ht.
    rewrite Hds, Hn in Hs. rewrite Hdt, Hm in Ht.
    cbv [mret result_ret mbind result_bind] in *. simplify_eq/=.
    unfold key_lt. simpl. reflexivity.
  - intros s Hd Hs. unfold natural_chrom_key. rewrite Hd.
    rewrite !not_elem_of_cons in Hs. destruct Hs as (? & ? & ? & ? & _).
    unfold Py.dict_get, order. simpl. by rewrite !decide_False.
Qed.

Lemma C2_witness :
  exists keys,
    Forall2 (fun kv k => natural_chrom_key kv.1 = Ok k)
      [("2", 7%Z); ("X", 5%Z); ("M", 3%Z)] keys /\
    StronglySorted key_le keys.
Proof.
  destruct C2_natural_order as [H _].
  apply (H (tsv [["chrX"; "5"]; ["chrM"; "3"]; ["chr2"; "7"]])).
  reflexivity.
Defined.

(** ** The lines of the cytobands *)

Lemma cytoband_line_Ok (cytobands cytobands' : list cytoband) (line : string) :
  cytoband_line cytobands line = Ok cytobands' <->
  (~ nonblank line /\ cytobands' = cytobands) \/
  (nonblank line /\ exists b, band_of line b /\ cytobands' = cytobands ++ [b]).
Proof.
  unfold cytoband_line, nonblank, band_of.
  destruct (Py.is_empty (Py.strip line)).
  { split; [intros [= <-]; left; by split | intros [[_ ->]|[[=] _]]; done]. }
  split.
  - intros H. right. split; [done|].
    destruct (Py.split Py.TAB line) as [|c [|s [|e [|n [|st [|? ?]]]]]]; try done.
    destruct (Py.int s) as [zs|] eqn:Hs; [|done].
    destruct (Py.int e) as [ze|] eqn:He; [|done].
    injection H as <-. exists (Cytoband c zs ze n st). split; [|done].
    by exists s, e.
  - intros [[[] _]|(_ & [c zs ze n st] & (s & e & -> & Hs & He) & ->)]; [done|].
    simpl in *. by rewrite Hs, He.
Qed.

Lemma cytoband_line_error (cytobands : list cytoband) (line : string) (e : exn) :
  cytoband_line cytobands line = Raise e -> e = ValueError.
Proof.
  unfold cytoband_line. destruct (Py.is_empty _); [done|].
  destruct (Py.split Py.TAB line) as [|c [|s [|e' [|n [|st [|? ?]]]]]]; try congruence.
  destruct (Py.int s) as [zs|] eqn:Hs; [|apply int_error in Hs; simpl; congruence].
  destruct (Py.int e') as [ze|] eqn:He; [done|apply int_error in He; simpl; congruence].
Qed.

(** Whether a line is accepted does not depend on the list so far. *)
Lemma cytoband_line_is_ok (bs bs' : list cytoband) (line : string) :
  is_ok (cytoband_line bs line) = is_ok (cytoband_line bs' line).
Proof.
  unfold cytoband_line. destruct (Py.is_empty _); [done|].
  destruct (Py.split Py.TAB line) as [|c [|s [|e' [|n [|st [|? ?]]]]]]; try done.
  destruct (Py.int s); [|done]. by destruct (Py.int e').
Qed.

Lemma cytoband_lines_Ok (cytobands recs : list cytoband) (lines : list string) :
  cytoband_lines cytobands lines = Ok recs ->
  exists new, recs = cytobands ++ new /\ Forall2 band_of (filter nonblank lines) new.
Proof.
  revert cytobands; induction lines as [|line lines IH]; intros bs; simpl.
  - intros [= <-]. exists []. by rewrite app_nil_r.
  - intros (bs' & Hline & Hrest)%bind_Ok.
    destruct (IH _ Hrest) as (new & -> & Hnew).
    apply cytoband_line_Ok in Hline as [[Hb ->]|(Hnb & b & Hb & ->)].
    + exists new. by rewrite filter_cons_False.
    + exists (b :: new). rewrite <- app_assoc, filter_cons_True by done.
      split; [done | by constructor].
Qed.

Lemma cytoband_lines_error (cytobands : list cytoband) (lines : list string) (e : exn) :
  cytoband_lines cytobands lines = Raise e -> e = ValueError.
Proof.
  revert cytobands; induction lines as [|line lines IH]; intros bs; simpl; [done|].
  destruct (cytoband_line bs line) as [bs'|e'] eqn:Hl; simpl.
  - apply IH.
  - intros [= <-]. by eapply cytoband_line_error.
Qed.

Lemma cytoband_lines_is_ok (cytobands : list cytoband) (lines : list string) :
  is_ok (cytoband_lines cytobands lines) = true <->
  Forall (fun line => is_ok (cytoband_line [] line) = true) lines.
Proof.
  revert cytobands; induction lines as [|line lines IH]; intros bs; simpl.
  - split; [constructor | done].
  - rewrite Forall_cons, (cytoband_line_is_ok [] bs).
    destruct (cytoband_line bs line) as [bs'|]; simpl.
    + rewrite IH. tauto.
    + split; [done | intros [[=] _]].
Qed.

(** ** Cytobands: the claims *)

(** C5. A successful [parse_cytobands] returns one record for each line
    that is not blank, in the order of the lines, each with the five
    fields of its line: the first, fourth and fifth as they are and the
    second and third as integers.  No line is left out for its label,
    and repeated lines are repeated.  The parse succeeds exactly when
    every line is accepted by the loop body. *)
Theorem C5_cytobands_in_file_order :
  (forall (text : string) (recs : list cytoband),
     parse_cytobands text = Ok recs ->
     Forall2 band_of (filter nonblank (Py.splitlines text)) recs /\
     length recs = length (filter nonblank (Py.splitlines text))) /\
  (forall text : string,
     is_ok (parse_cytobands text) = true <->
     Forall (fun line => is_ok (cytoband_line [] line) = true) (Py.splitlines text)) /\
  parse_cytobands
    (tsv [["chrUn_GL000220v1"; "100"; "200"; "q1"; "gpos"]; [];
          ["chr2"; "0"; "4400000"; "p25.3"; "gneg"];
          ["chr1"; "0"; "2300000"; "p36.33"; "gneg"];
          ["chr2"; "0"; "4400000"; "p25.3"; "gneg"]])
  = Ok [Cytoband "chrUn_GL000220v1" 100 200 "q1" "gpos";
        Cytoband "chr2" 0 4400000 "p25.3" "gneg";
        Cytoband "chr1" 0 2300000 "p36.33" "gneg";
        Cytoband "chr2" 0 4400000 "p25.3" "gneg"].
Proof.
  split_and!; [| |reflexivity].
  - intros text recs Hp. unfold parse_cytobands in Hp.
    apply cytoband_lines_Ok in Hp as (new & -> & Hnew). simpl.
    split; [done|]. symmetry. by eapply Forall2_length.
  - intros text. apply cytoband_lines_is_ok.
Qed.

Lemma C5_witness :
  Forall2 band_of
    (filter nonblank (Py.splitlines (tsv [["chrUn"; "7"; "9"; "q1"; "gpos"]; []])))
    [Cytoband "chrUn" 7 9 "q1" "gpos"].
Proof.
  destruct C5_cytobands_in_file_order as [H _].
  apply (H (tsv [["chrUn"; "7"; "9"; "q1"; "gpos"]; []])). reflexivity.
Defined.

(** ** Signs *)

Lemma digit_val_nonneg (c : ascii) (d : Z) : Py.digit_val c = Some d -> 0 <= d.
Proof. unfold Py.digit_val. case_match; [intros [= <-]; lia | done]. Qed.

Lemma int_digits_nonneg (s : string) (acc : Z) (b : bool) (z : Z) :
  0 <= acc -> Py.int_digits acc b s = Some z -> 0 <= z.
Proof.
  revert acc b; induction s as [|c s IH]; intros acc b Hacc; simpl.
  - destruct b; [intros [= <-]; done | done].
  - destruct (Ascii.eqb c "_").
    + destruct b; [by apply IH | done].
    + destruct (Py.digit_val c) as [d|] eqn:Hd; [|done].
      apply digit_val_nonneg in Hd. apply IH. lia.
Qed.

(** [int] gives a negative number only for a literal with a minus sign. *)
Lemma int_nonneg (s : string) (z : Z) :
  Py.int s = Ok z -> has_minus_sign s = false -> 0 <= z.
Proof.
  unfold Py.int, has_minus_sign.
  destruct (Py.strip_by Py.int_space s) as [|c r] eqn:Hb; [done|].
  destruct (Ascii.ascii_dec c "-") as [->|Hm].
  { done. }
  destruct c as [[] [] [] [] [] [] [] []]; try congruence; intros H _;
    match type of H with
    | match ?o with Some _ => _ | None => _ end = _ =>
        destruct o as [z0|] eqn:Ho; [|done]; injection H as ->;
        by eapply int_digits_nonneg in Ho
    end.
Qed.

(** C7, as the code has it.  The length of a record of
    [parse_chromosome_sizes] is the value that [int] gives for the
    second field of a line with its label, and [chromStart] and
    [chromEnd] of a record of [parse_cytobands] are the values of the
    second and third fields of its line.  [int] accepts a sign, and the
    code compares nothing: a length or a [chromStart] is not negative
    when its field has no minus sign, and [chromEnd] is above
    [chromStart] when the value of the third field is above that of the
    second. *)
Theorem C7_integer_fields_as_read :
  (forall (text : string) (recs : list (string * Z)),
     parse_chromosome_sizes text = Ok recs ->
     forall (name : string) (size : Z), (name, size) ∈ recs ->
       exists line size_str,
         line ∈ Py.splitlines text /\
         Py.split Py.TAB line = ["chr" +:+ name; size_str] /\
         Py.int size_str = Ok size /\
         (has_minus_sign size_str = false -> 0 <= size)) /\
  (forall (text : string) (recs : list cytoband),
     parse_cytobands text = Ok recs ->
     forall b : cytoband, b ∈ recs ->
       exists line start_str end_str,
         line ∈ Py.splitlines text /\
         Py.split Py.TAB line = [chrom b; start_str; end_str; name b; stain b] /\
         Py.int start_str = Ok (chromStart b) /\
         Py.int end_str = Ok (chromEnd b) /\
         (has_minus_sign start_str = false -> 0 <= chromStart b)).
Proof.
  split.
  - intros text recs Hp name size Hin.
    destruct record_from_line with (1 := Hp) (2 := Hin)
      as (line & size_str & Hl & Hsp & _ & Hi).
    exists line, size_str. split_and!; [done..|]. by apply int_nonneg.
  - intros text recs Hp b Hin. unfold parse_cytobands in Hp.
    apply cytoband_lines_Ok in Hp as (new & -> & Hnew). simpl in Hin.
    apply list_elem_of_lookup in Hin as [i Hi].
    destruct (Forall2_lookup_r _ _ _ _ _ Hnew Hi) as (line & Hline & (s & e & Hsp & Hs & He)).
    exists line, s, e. split_and!; [|done..|by apply int_nonneg].
    apply list_elem_of_lookup_2 in Hline.
    by apply list_elem_of_filter in Hline as [_ ?].
Qed.

Lemma C7_witness :
  exists line size_str,
    line ∈ Py.splitlines (tsv [["chr1"; "248956422"]]) /\
    Py.split Py.TAB line = ["chr" +:+ "1"; size_str] /\
    Py.int size_str = Ok 248956422 /\
    (has_minus_sign size_str = false -> 0 <= 248956422).
Proof.
  destruct C7_integer_fields_as_read as [H _].
  apply (H (tsv [["chr1"; "248956422"]]) [("1", 248956422)]).
  - reflexivity.
  - apply elem_of_cons. by left.
Defined.

(** C7 fails as it is stated: a size of -5 is recorded as it is, and so
    are a band that starts at -3 and a band that ends before it
    starts. *)
Lemma C7_counterexample :
  parse_chromosome_sizes (tsv [["chr1"; "-5"]]) = Ok [("1", -5)] /\
  parse_cytobands (tsv [["chr1"; "-3"; "4"; "p36.33"; "gneg"];
                        ["chr1"; "10"; "5"; "p36.32"; "gpos25"]])
  = Ok [Cytoband "chr1" (-3) 4 "p36.33" "gneg";
        Cytoband "chr1" 10 5 "p36.32" "gpos25"] /\
  ~ (forall (text : string) (recs : list (string * Z)),
       parse_chromosome_sizes text = Ok recs ->
       forall kv, kv ∈ recs -> 0 <= kv.2) /\
  ~ (forall (text : string) (recs : list cytoband),
       parse_cytobands text = Ok recs ->
       forall b, b ∈ recs -> 0 <= chromStart b /\ chromStart b < chromEnd b).
Proof.
  split_and!; [reflexivity..| |].
  - intros H.
    specialize (H (tsv [["chr1"; "-5"]]) [("1", -5)] eq_refl ("1", -5)).
    simpl in H. assert (0 <= -5) by (apply H, elem_of_cons; by left). lia.
  - intros H.
    specialize (H (tsv [["chr1"; "10"; "5"; "p36.32"; "gpos25"]])
                  [Cytoband "chr1" 10 5 "p36.32" "gpos25"] eq_refl
                  (Cytoband "chr1" 10 5 "p36.32" "gpos25")).
    simpl in H. assert (0 <= 10 /\ 10 < 5) by (apply H, elem_of_cons; by left). lia.
Qed.

(** ** Running the loaders *)

Lemma mapM_alloc_run (records : list obj) (w : world) :
  mapM alloc records w
  = (Ok (seq (length (heap w)) (length records)), extended records w).
Proof.
  revert w; induction records as [|o records IH]; intros [h reqs]; simpl.
  - unfold extended. simpl. by rewrite app_nil_r.
  - unfold mbind, M_bind, alloc at 1. simpl.
    change (fix go (l : list obj) : M (list loc) := _) with (mapM alloc).
    rewrite IH. unfold extended. simpl.
    rewrite length_app, <- app_assoc. simpl.
    replace (length h + 1)%nat with (S (length h)) by lia. done.
Qed.

Lemma alloc_list_run (records : list obj) (w : world) :
  alloc_list records w
  = (Ok (length (heap w) + length records)%nat,
     extended (records ++ [list_object (heap w) records]) w).
Proof.
  unfold alloc_list, mbind, M_bind. rewrite mapM_alloc_run.
  unfold alloc, extended, list_object. simpl.
  by rewrite length_app, <- app_assoc.
Qed.

Lemma load_chromosomes_run (net : remote) (u : string) (w : world) :
  load_chromosomes net u w
  = match remote_text net (chrom_sizes_url u) ≫= parse_chromosome_sizes with
    | Ok items =>
        alloc_list (chromosome_record <$> items) (requested (chrom_sizes_url u) w)
    | Raise e => (Raise e, requested (chrom_sizes_url u) w)
    end.
Proof.
  unfold load_chromosomes, mbind at 1 2, M_bind, fetch_text, lift.
  fold (requested (chrom_sizes_url u) w).
  destruct (remote_text net (chrom_sizes_url u)) as [text|]; simpl; [|done].
  by destruct (parse_chromosome_sizes text).
Qed.

Lemma load_cytobands_run (net : remote) (u : string) (w : world) :
  load_cytobands net u w
  = match remote_gzip_text net (cytoband_url u) ≫= parse_cytobands with
    | Ok bands =>
        alloc_list (cytoband_record <$> bands) (requested (cytoband_url u) w)
    | Raise e => (Raise e, requested (cytoband_url u) w)
    end.
Proof.
  unfold load_cytobands, mbind at 1 2, M_bind, fetch_gzip_text, lift.
  fold (requested (cytoband_url u) w).
  destruct (remote_gzip_text net (cytoband_url u)) as [text|]; simpl; [|done].
  by destruct (parse_cytobands text).
Qed.

(** ** The heap *)

Section heap.
Implicit Types (h ext : list obj) (l : loc).

Lemma list_at_extend h ext l records :
list_at h l records -> list_at (h ++ ext) l records.
Proof.
intros (refs & Hl & Hrefs). exists refs. split; [by apply lookup_app_l_Some|].
eapply Forall2_impl; [exact Hrefs|].
intros r o Hr. by apply lookup_app_l_Some.
Qed.

Lemma entry_at_extend h ext entry d :
entry_at h entry d -> entry_at (h ++ ext) entry d.
Proof.
intros (lc & lb & -> & Hc & Hb). exists lc, lb.
split_and!; [done | by apply list_at_extend..].
Qed.

Lemma catalog_at_extend h ext c v :
catalog_at h c v -> catalog_at (h ++ ext) c v.
Proof.
intros Hc. eapply Forall2_impl; [exact Hc|].
intros ce ve [? ?]. split; [done | by apply entry_at_extend].
Qed.

(** The list that [alloc_list] has built. *)
Lemma list_at_alloc h records :
list_at (h ++ records ++ [list_object h records])
  (length h + length records)%nat records.
Proof.
exists (seq (length h) (length records)). split.
- rewrite lookup_app_r by lia. rewrite lookup_app_r by lia.
  replace (length h + length records - length h - length records)%nat
    with 0%nat by lia. done.
- apply Forall2_same_length_lookup. split; [by rewrite length_seq|].
  intros i r o [-> Hi]%lookup_seq Ho.
  rewrite lookup_app_r by lia. rewrite lookup_app_l by lia.
  by replace (length h + i - length h)%nat with i by lia.
Qed.

(** The copy of a list: a new object at the end of the heap. *)
Lemma list_at_copy h l records items :
  h !! l = Some (OList items) -> list_at h l records ->
  list_at (h ++ [OList items]) (length h) records.
Proof.
  intros Hl (refs & Hl' & Hrefs). exists refs. split.
  - rewrite lookup_app_r by lia. rewrite Nat.sub_diag. simpl. congruence.
  - eapply Forall2_impl; [exact Hrefs|].
    intros r o Hr. by apply lookup_app_l_Some.
Qed.
End heap.

(** ** Dictionaries of entries *)

Lemma dict_set_Forall2 {V W} (R : V -> W -> Prop) (k : string) (v : V) (w : W)
    (d1 : list (string * V)) (d2 : list (string * W)) :
  Forall2 (fun a b => a.1 = b.1 /\ R a.2 b.2) d1 d2 -> R v w ->
  Forall2 (fun a b => a.1 = b.1 /\ R a.2 b.2) (Py.dict_set k v d1) (Py.dict_set k w d2).
Proof.
  intros Hd Hvw. induction Hd as [|[k1 v1] [k2 w2] d1 d2 [Hk Hr] Hd IH]; simpl in *.
  - by repeat constructor.
  - subst k2. case_decide; constructor; done.
Qed.

Lemma catalog_locs_cons (k : string) (entry : list (string * val)) (c : catalog) :
  catalog_locs ((k, entry) :: c) = entry_locs entry ++ catalog_locs c.
Proof. reflexivity. Qed.

Lemma catalog_locs_dict_set (k : string) (entry : list (string * val)) (c : catalog) (l : loc) :
  l ∈ catalog_locs (Py.dict_set k entry c) -> l ∈ entry_locs entry \/ l ∈ catalog_locs c.
Proof.
  induction c as [|[k' e'] c IH]; cbn [Py.dict_set].
  - rewrite catalog_locs_cons, elem_of_app. tauto.
  - case_decide; rewrite !catalog_locs_cons, !elem_of_app; [tauto|].
    intros [?|?%IH]; tauto.
Qed.

Lemma catalog_locs_dict_set_NoDup (k : string) (entry : list (string * val)) (c : catalog) :
  NoDup (catalog_locs c) -> NoDup (entry_locs entry) ->
  (forall l, l ∈ entry_locs entry -> l ∉ catalog_locs c) ->
  NoDup (catalog_locs (Py.dict_set k entry c)).
Proof.
  induction c as [|[k' e'] c IH]; cbn [Py.dict_set]; intros Hc He Hfresh.
  - rewrite catalog_locs_cons. by rewrite app_nil_r.
  - rewrite catalog_locs_cons in Hc, Hfresh.
    apply NoDup_app in Hc as (He' & Hdisj & Hc).
    case_decide; rewrite catalog_locs_cons; apply NoDup_app.
    + split_and!; [done| |done].
      intros l Hl Hl'. apply (Hfresh l Hl), elem_of_app. by right.
    + split_and!; [done| |].
      * intros l Hl [Hl'|Hl']%catalog_locs_dict_set.
        -- apply (Hfresh l Hl'), elem_of_app. by left.
        -- by apply (Hdisj l).
      * apply IH; [done..|].
        intros l Hl Hl'. apply (Hfresh l Hl), elem_of_app. by right.
Qed.

(** ** Running one step of the build *)

Lemma build_step_halves (net : remote) (result cache : catalog) (label u : string) :
  build_step net (result, cache) (label, u)
  = cache' ← fill_cache net cache u; copy_entry result cache' label u.
Proof. reflexivity. Qed.

Lemma bind_run {A B} (m : M A) (f : A -> M B) (w : world) :
  (m ≫= f) w
  = match m w with
    | (Ok a, w') => f a w'
    | (Raise e, w') => (Raise e, w')
    end.
Proof. reflexivity. Qed.

Lemma bind_lift_run {A B} (r : result A) (f : A -> M B) (w : world) :
  (lift r ≫= f) w = match r with Ok a => f a w | Raise e => (Raise e, w) end.
Proof. by destruct r. Qed.

Lemma bind_list_copy_run {B} (l : loc) (items : list val) (f : loc -> M B) (w : world) :
  heap w !! l = Some (OList items) ->
  (list_copy (VRef l) ≫= f) w = f (length (heap w)) (extended [OList items] w).
Proof. intros Hl. rewrite bind_run. unfold list_copy. by rewrite Hl. Qed.

Lemma copy_entry_run (result cache : catalog) (label u : string) (w : world)
    (lc lb : loc) (xs ys : list val) :
  Py.dict_lookup u cache = Some [("chromosomes", VRef lc); ("cytobands", VRef lb)] ->
  heap w !! lc = Some (OList xs) -> heap w !! lb = Some (OList ys) ->
  copy_entry result cache label u w
  = (Ok (Py.dict_set label
           [("chromosomes", VRef (length (heap w)));
            ("cytobands", VRef (S (length (heap w))))] result,
         cache),
     extended [OList xs; OList ys] w).
Proof.
  intros Hu Hc Hb.
  assert (Hentry : Py.dict_getitem cache u
                   = Ok [("chromosomes", VRef lc); ("cytobands", VRef lb)])
    by (unfold Py.dict_getitem; by rewrite Hu).
  assert (Hg1 : Py.dict_getitem [("chromosomes", VRef lc); ("cytobands", VRef lb)]
                  "chromosomes" = Ok (VRef lc)) by reflexivity.
  assert (Hg2 : Py.dict_getitem [("chromosomes", VRef lc); ("cytobands", VRef lb)]
                  "cytobands" = Ok (VRef lb)) by reflexivity.
  unfold copy_entry.
  rewrite bind_lift_run, Hentry, bind_lift_run, Hg1.
  rewrite (bind_list_copy_run lc xs) by done.
  rewrite bind_lift_run, bind_lift_run, Hg2.
  rewrite (bind_list_copy_run lb ys) by (by apply lookup_app_l_Some).
  unfold mret, M_ret, extended. cbn [heap requests].
  rewrite length_app, <- app_assoc. cbn [length app].
  by replace (length (heap w) + 1)%nat with (S (length (heap w))) by lia.
Qed.

Lemma build_inv_init (net : remote) (w : world) :
  build_inv net (requests w) ([], []) w [].
Proof.
  split; simpl.
  - constructor.
  - intros u entry [=].
  - constructor.
  - constructor.
  - constructor.
  - by rewrite app_nil_r.
Qed.

Lemma copy_entry_spec (net : remote) (reqs0 : list string) (result cache : catalog)
    (w : world) (v : list (string * assembly)) (label u : string)
    (entry : list (string * val)) :
  build_inv net reqs0 (result, cache) w v ->
  Py.dict_lookup u cache = Some entry ->
  exists d result' ext,
    assembly_data net u = Ok d /\
    copy_entry result cache label u w = (Ok (result', cache), extended ext w) /\
    build_inv net reqs0 (result', cache) (extended ext w) (Py.dict_set label d v).
Proof.
  intros [Hres Hcache Hlocs Hbound Hkeys Hreqs] Hu. simpl in *.
  destruct (Hcache u entry Hu) as (d & Hd & lc & lb & -> & Hlc & Hlb).
  pose proof Hlc as (crefs & Hc & _). pose proof Hlb as (brefs & Hb & _).
  set (n := length (heap w)).
  exists d, (Py.dict_set label [("chromosomes", VRef n); ("cytobands", VRef (S n))] result),
    [OList (VRef <$> crefs); OList (VRef <$> brefs)].
  split_and!; [done|by eapply copy_entry_run|].
  split; simpl.
  - apply (dict_set_Forall2 (entry_at _)); [by apply catalog_at_extend|].
    exists n, (S n). split_and!; [done| |].
    + change (heap w ++ [OList (VRef <$> crefs); OList (VRef <$> brefs)])
        with (heap w ++ [OList (VRef <$> crefs)] ++ [OList (VRef <$> brefs)]).
      rewrite app_assoc. apply list_at_extend. by eapply list_at_copy.
    + change (heap w ++ [OList (VRef <$> crefs); OList (VRef <$> brefs)])
        with (heap w ++ [OList (VRef <$> crefs)] ++ [OList (VRef <$> brefs)]).
      rewrite app_assoc.
      replace (S n) with (length (heap w ++ [OList (VRef <$> crefs)]))
        by (rewrite length_app; simpl; lia).
      eapply list_at_copy; [by apply lookup_app_l_Some | by apply list_at_extend].
  - intros u' entry' Hu'. destruct (Hcache u' entry' Hu') as (d' & ? & ?).
    exists d'. split; [done | by apply entry_at_extend].
  - apply catalog_locs_dict_set_NoDup; [done| |].
    + apply NoDup_cons. split; [|apply NoDup_singleton].
      intros ?%list_elem_of_singleton. lia.
    + intros l Hl Hl'. eapply Forall_forall in Hbound; [|exact Hl'].
      change (entry_locs _) with [n; S n] in Hl.
      apply elem_of_cons in Hl as [->|Hl];
        [|apply list_elem_of_singleton in Hl as ->]; lia.
  - apply Forall_forall. intros l [Hl|Hl]%catalog_locs_dict_set.
    + change (entry_locs _) with [n; S n] in Hl. rewrite length_app. simpl.
      apply elem_of_cons in Hl as [->|Hl];
        [|apply list_elem_of_singleton in Hl as ->]; lia.
    + eapply Forall_forall in Hbound; [|exact Hl]. rewrite length_app. lia.
  - done.
  - done.
Qed.

Lemma fill_cache_spec (net : remote) (reqs0 : list string) (result cache : catalog)
    (w : world) (v : list (string * assembly)) (u : string) :
  build_inv net reqs0 (result, cache) w v ->
  match fill_cache net cache u w with
  | (Ok cache', w') =>
      build_inv net reqs0 (result, cache') w' v /\
      is_Some (Py.dict_lookup u cache') /\
      (forall x, x ∈ cache'.*1 <-> x = u \/ x ∈ (cache.*1))
  | (Raise e, w') =>
      assembly_data net u = Raise e /\ (u ∉ cache.*1) /\
      (requests w' = requests w ++ [chrom_sizes_url u] \/
       requests w' = requests w ++ urls u)
  end.
Proof.
  intros [Hres Hcache Hlocs Hbound Hkeys Hreqs]. simpl in *.
  unfold fill_cache, Py.dict_mem.
  destruct (Py.dict_lookup u cache) as [entry|] eqn:Hu.
  { rewrite bool_decide_true by done. simpl. split_and!; [by split|done|].
    intros x. split; [auto|]. intros [->|?]; [|done].
    destruct (decide (u ∈ cache.*1)) as [|Hn]; [done|].
    apply dict_lookup_None in Hn. congruence. }
  rewrite bool_decide_false by (by intros [? ?]). cbn [negb].
  apply dict_lookup_None in Hu.
  rewrite bind_run, load_chromosomes_run.
  destruct (remote_text net (chrom_sizes_url u) ≫= parse_chromosome_sizes)
    as [items|e] eqn:H1; cycle 1.
  { split_and!; [|done|by left]. unfold assembly_data. by rewrite H1. }
  rewrite alloc_list_run, bind_run, load_cytobands_run.
  destruct (remote_gzip_text net (cytoband_url u) ≫= parse_cytobands)
    as [bands|e] eqn:H2; cycle 1.
  { split_and!; [|done|right].
    - unfold assembly_data. rewrite H1. simpl. by rewrite H2.
    - unfold urls. simpl. by rewrite <- app_assoc. }
  rewrite alloc_list_run. unfold mret, M_ret.
  cbn [heap requests extended requested].
  set (crecs := chromosome_record <$> items).
  set (brecs := cytoband_record <$> bands).
  set (h1 := heap w ++ crecs ++ [list_object (heap w) crecs]).
  set (h2 := h1 ++ brecs ++ [list_object h1 brecs]).
  assert (Hd : assembly_data net u = Ok (items, bands)).
  { unfold assembly_data. rewrite H1. simpl. by rewrite H2. }
  split_and!.
  - split; simpl.
    + unfold h2, h1. by apply catalog_at_extend, catalog_at_extend.
    + intros u' entry'. rewrite dict_lookup_set.
      destruct (decide (u = u')) as [<-|Hne].
      * intros [= <-]. exists (items, bands). split; [done|].
        eexists _, _. split_and!; [done| |].
        -- unfold h2. apply list_at_extend. apply list_at_alloc.
        -- apply list_at_alloc.
      * intros Hu'. destruct (Hcache u' entry' Hu') as (d' & ? & ?).
        exists d'. split; [done|].
        unfold h2, h1. by apply entry_at_extend, entry_at_extend.
    + done.
    + eapply Forall_impl; [exact Hbound|].
      intros l Hl. unfold h2, h1. rewrite !length_app. simpl in *. lia.
    + by apply dict_set_NoDup.
    + rewrite dict_set_keys, decide_False by done.
      rewrite bind_app, Hreqs, <- !app_assoc. done.
  - rewrite dict_lookup_set, decide_True by done. by eexists.
  - intros x. rewrite dict_set_keys, decide_False by done.
    rewrite elem_of_app, list_elem_of_singleton. tauto.
Qed.

(** One step of the loop keeps the invariant and puts the data of the
    assembly under the label, or fails as [assembly_data] does. *)
Lemma build_step_spec (net : remote) (reqs0 : list string) (st : catalog * catalog)
    (w : world) (v : list (string * assembly)) (label u : string) :
  build_inv net reqs0 st w v ->
  match build_step net st (label, u) w with
  | (Ok st', w') =>
      exists d, assembly_data net u = Ok d /\
                build_inv net reqs0 st' w' (Py.dict_set label d v) /\
                (forall x, x ∈ st'.2.*1 <-> x = u \/ x ∈ (st.2.*1))
  | (Raise e, w') =>
      assembly_data net u = Raise e /\ (u ∉ st.2.*1) /\
      (requests w' = requests w ++ [chrom_sizes_url u] \/
       requests w' = requests w ++ urls u)
  end.
Proof.
  destruct st as [result cache]. intros Hinv.
  rewrite build_step_halves, bind_run.
  pose proof (fill_cache_spec net reqs0 result cache w v u Hinv) as Hfill.
  destruct (fill_cache net cache u w) as [[cache'|e] w1]; [|done].
  destruct Hfill as (Hinv' & [entry Hu] & Hsub).
  destruct (copy_entry_spec net reqs0 result cache' w1 v label u entry Hinv' Hu)
    as (d & result' & ext & Hd & -> & Hinv'').
  exists d. done.
Qed.

(** The loop computes [catalog_data] and fails as it does. *)
Lemma build_loop_spec (net : remote) (reqs0 : list string) (items : list (string * string))
    (st : catalog * catalog) (w : world) (v : list (string * assembly)) :
  build_inv net reqs0 st w v ->
  match build_loop net st items w with
  | (Ok c, w') =>
      exists v' cache',
        catalog_data net v items = Ok v' /\
        build_inv net reqs0 (c, cache') w' v' /\
        (forall x, x ∈ cache'.*1 <-> x ∈ st.2.*1 \/ x ∈ (items.*2))
  | (Raise e, w') =>
      catalog_data net v items = Raise e /\
      exists keys u,
        NoDup (keys ++ [u]) /\
        (forall x, x ∈ keys ++ [u] -> x ∈ st.2.*1 \/ x ∈ (items.*2)) /\
        (requests w' = reqs0 ++ (keys ≫= urls) ++ [chrom_sizes_url u] \/
         requests w' = reqs0 ++ (keys ≫= urls) ++ urls u)
  end.
Proof.
  revert st w v; induction items as [|[label u] items IH]; intros st w v Hinv.
  - simpl. exists v, st.2. split_and!; [done|by destruct st|].
    intros x. rewrite elem_of_nil. tauto.
  - cbn [build_loop catalog_data]. rewrite bind_run.
    pose proof (build_step_spec net reqs0 st w v label u Hinv) as Hstep.
    destruct (build_step net st (label, u) w) as [[st'|e] w1].
    + destruct Hstep as (d & Hd & Hinv' & Hkeys).
      rewrite Hd. simpl.
      specialize (IH st' w1 (Py.dict_set label d v) Hinv').
      destruct (build_loop net st' items w1) as [[c|e] w2].
      * destruct IH as (v' & cache' & Hv' & Hinv'' & Hkeys').
        exists v', cache'. split_and!; [done..|].
        intros x. rewrite Hkeys', Hkeys. csimpl. rewrite elem_of_cons. tauto.
      * destruct IH as (He & keys & u' & Hnd & Hsub & Hreqs).
        split; [done|]. exists keys, u'. split_and!; [done| |done].
        intros x Hx. destruct (Hsub x Hx) as [Hx'|Hx'].
        -- apply Hkeys in Hx' as [->|?]; [right; apply elem_of_cons; by left|by left].
        -- right. apply elem_of_cons. by right.
    + destruct Hstep as (He & Hu & Hreqs). rewrite He. split; [done|].
      exists (st.2.*1), u. split_and!.
      * apply NoDup_app. split_and!; [apply Hinv| |apply NoDup_singleton].
        intros x Hx ->%list_elem_of_singleton. done.
      * intros x [?|Hx]%elem_of_app; [by left|].
        apply list_elem_of_singleton in Hx as ->.
        right. apply elem_of_cons. by left.
      * rewrite (inv_requests _ _ _ _ _ Hinv), <- !app_assoc in Hreqs. done.
Qed.

(** The build, from any world: the catalog it returns represents
    [catalog_data], its lists are pairwise different objects, and the
    requests are those of the assemblies of the aliases, each once. *)
Lemma build_spec (net : remote) (aliases : list (string * string)) (w : world) :
  match build_genome_object_from net aliases w with
  | (Ok c, w') =>
      exists v keys,
        catalog_data net [] aliases = Ok v /\
        catalog_at (heap w') c v /\
        NoDup (catalog_locs c) /\
        NoDup keys /\ (forall x, x ∈ keys <-> x ∈ aliases.*2) /\
        requests w' = requests w ++ (keys ≫= urls)
  | (Raise e, w') =>
      catalog_data net [] aliases = Raise e /\
      exists keys u,
        NoDup (keys ++ [u]) /\ (forall x, x ∈ keys ++ [u] -> x ∈ aliases.*2) /\
        (requests w' = requests w ++ (keys ≫= urls) ++ [chrom_sizes_url u] \/
         requests w' = requests w ++ (keys ≫= urls) ++ urls u)
  end.
Proof.
  unfold build_genome_object_from.
  pose proof (build_loop_spec net (requests w) aliases ([], []) w [] (build_inv_init net w))
    as Hloop.
  destruct (build_loop net ([], []) aliases w) as [[c|e] w'].
  - destruct Hloop as (v & cache & Hv & [Hres Hcache Hlocs Hbound Hkeys Hreqs] & Hsub).
    simpl in *. exists v, (cache.*1). split_and!; [done..| |done].
    intros x. rewrite Hsub, elem_of_nil. tauto.
  - destruct Hloop as (He & keys & u & Hnd & Hsub & Hreqs).
    split; [done|]. exists keys, u. split_and!; [done| |done].
    intros x Hx. destruct (Hsub x Hx) as [Hx'|]; [|done].
    simpl in Hx'. by apply elem_of_nil in Hx'.
Qed.

(** ** The URLs *)

Lemma chars_app (s t : string) :
  list_ascii_of_string (s +:+ t) = list_ascii_of_string s ++ list_ascii_of_string t.
Proof.
  induction s as [|c s IH]; [done|].
  change (String c s +:+ t) with (String c (s +:+ t)). simpl. by rewrite IH.
Qed.

Lemma chars_inj (s t : string) :
  list_ascii_of_string s = list_ascii_of_string t -> s = t.
Proof.
  intros H. rewrite <- (string_of_list_ascii_of_string s), H.
  apply string_of_list_ascii_of_string.
Qed.

Lemma cytoband_url_inj (u1 u2 : string) : cytoband_url u1 = cytoband_url u2 -> u1 = u2.
Proof.
  unfold cytoband_url. intros H%(f_equal list_ascii_of_string).
  rewrite !chars_app in H. apply app_inv_head, app_inv_head, app_inv_tail in H.
  by apply chars_inj.
Qed.

Lemma chrom_sizes_url_inj (u1 u2 : string) :
  chrom_sizes_url u1 = chrom_sizes_url u2 -> u1 = u2.
Proof.
  unfold chrom_sizes_url. intros H%(f_equal list_ascii_of_string).
  rewrite !chars_app in H. apply app_inv_head, app_inv_head in H.
  pose proof (f_equal length H) as Hlen. rewrite !length_app in Hlen.
  apply app_inj_1 in H as [H _]; [by apply chars_inj | lia].
Qed.

Lemma chrom_sizes_url_not_cytoband (u1 u2 : string) :
  chrom_sizes_url u1 <> cytoband_url u2.
Proof.
  unfold chrom_sizes_url, cytoband_url. intros H%(f_equal list_ascii_of_string).
  apply (f_equal last) in H. rewrite !chars_app, !last_app in H.
  simpl in H. discriminate.
Qed.

Lemma urls_NoDup (keys : list string) : NoDup keys -> NoDup (keys ≫= urls).
Proof.
  induction 1 as [|u keys Hu Hkeys IH]; [constructor|].
  rewrite bind_cons. apply NoDup_app. split_and!; [|
    |done].
  - apply NoDup_cons. split; [|apply NoDup_singleton].
    intros ?%list_elem_of_singleton. by eapply chrom_sizes_url_not_cytoband.
  - intros x Hx (u' & Hx' & Hu')%list_elem_of_bind.
    unfold urls in Hx, Hx'. rewrite !elem_of_cons, elem_of_nil in Hx, Hx'.
    destruct Hx as [->|[->|[]]], Hx' as [Hx'|[Hx'|[]]].
    + apply chrom_sizes_url_inj in Hx' as ->. done.
    + by eapply chrom_sizes_url_not_cytoband.
    + symmetry in Hx'. by eapply chrom_sizes_url_not_cytoband.
    + apply cytoband_url_inj in Hx' as ->. done.
Qed.

(** The requests of a run that fails: the URLs of some assemblies, then
    the first or both of one more. *)
Lemma urls_NoDup_failed (keys : list string) (u : string) (new : list string) :
  NoDup (keys ++ [u]) ->
  new = (keys ≫= urls) ++ [chrom_sizes_url u] \/ new = (keys ≫= urls) ++ urls u ->
  NoDup new.
Proof.
  intros Hnd%urls_NoDup Hnew. rewrite bind_app in Hnd.
  change ([u] ≫= urls) with [chrom_sizes_url u; cytoband_url u] in Hnd.
  destruct Hnew as [-> | ->]; [|done].
  apply NoDup_app in Hnd as (H1 & H2 & H3). apply NoDup_app. split_and!; [done| |].
  - intros x Hx ->%list_elem_of_singleton. apply (H2 _ Hx), elem_of_cons. by left.
  - apply NoDup_singleton.
Qed.

(** ** The build: the claims *)

(** C9. Whatever the aliases and the answers of the repository, and
    whether the build succeeds or fails, no URL is requested twice in
    one build, and every request is one of the two of an assembly that
    an alias refers to; after a successful build each of these has been
    requested, once.  For [ASSEMBLY_ALIAS] that is four requests for the
    four aliases. *)
Theorem C9_one_fetch_pair_per_assembly
    (net : remote) (aliases : list (string * string)) (w : world) :
  exists new,
    requests (build_genome_object_from net aliases w).2 = requests w ++ new /\
    NoDup new /\
    (forall url, count_occ string_dec new url <= 1)%nat /\
    (forall url, url ∈ new -> exists u, u ∈ aliases.*2 /\ url ∈ urls u) /\
    (is_ok (build_genome_object_from net aliases w).1 = true ->
     forall u, u ∈ aliases.*2 ->
       count_occ string_dec new (chrom_sizes_url u) = 1%nat /\
       count_occ string_dec new (cytoband_url u) = 1%nat) /\
    requests (build_genome_object (constant_remote "" "") (World [] [])).2
    = [chrom_sizes_url "hg38"; cytoband_url "hg38";
       chrom_sizes_url "hg19"; cytoband_url "hg19"].
Proof.
  pose proof (build_spec net aliases w) as Hb.
  destruct (build_genome_object_from net aliases w) as [[c|e] w']; simpl.
  - destruct Hb as (v & keys & _ & _ & _ & Hnd & Hkeys & Hreqs).
    exists (keys ≫= urls).
    assert (NoDup (keys ≫= urls)) as Hnew by by apply urls_NoDup.
    split_and!; [done..| | | |reflexivity].
    + apply (proj1 (NoDup_count_occ string_dec _)). by apply NoDup_ListNoDup.
    + intros url (u & Hurl & Hu)%list_elem_of_bind. exists u. by rewrite <- Hkeys.
    + intros _ u Hu%Hkeys.
      assert (forall url, url ∈ urls u -> count_occ string_dec (keys ≫= urls) url = 1%nat)
        as Hone.
      { intros url Hurl. apply NoDup_count_occ'; [by apply NoDup_ListNoDup|].
        apply list_elem_of_In, list_elem_of_bind. by exists u. }
      split; apply Hone; unfold urls; rewrite !elem_of_cons; auto.
  - destruct Hb as (_ & keys & u & Hnd & Hsub & Hreqs).
    assert (exists new, requests w' = requests w ++ new /\
              (new = (keys ≫= urls) ++ [chrom_sizes_url u] \/
               new = (keys ≫= urls) ++ urls u)) as (new & Hw' & Hnew).
    { destruct Hreqs as [-> | ->]; eexists; split; eauto. }
    exists new.
    assert (NoDup new) as Hndnew by by eapply urls_NoDup_failed.
    split_and!; [done..| | |done|reflexivity].
    + apply (proj1 (NoDup_count_occ string_dec _)). by apply NoDup_ListNoDup.
    + intros url Hurl.
      assert (url ∈ (keys ++ [u]) ≫= urls) as (u' & Hin & Hu')%list_elem_of_bind.
      { rewrite bind_app. change ([u] ≫= urls) with (urls u).
        destruct Hnew as [-> | ->]; [|done].
        apply elem_of_app in Hurl as [?|Hurl]; apply elem_of_app; [by left|right].
        apply list_elem_of_singleton in Hurl as ->.
        apply elem_of_cons. by left. }
      exists u'. split; [by apply Hsub | done].
Qed.

(** The data under a label of a dictionary of distinct labels. *)
Lemma catalog_data_lookup (net : remote) (items : list (string * string)) :
  forall (v v' : list (string * assembly)) (a : string),
    NoDup items.*1 -> catalog_data net v items = Ok v' ->
    (forall u, (a, u) ∈ items ->
       exists d, assembly_data net u = Ok d /\ Py.dict_lookup a v' = Some d) /\
    (a ∉ items.*1 -> Py.dict_lookup a v' = Py.dict_lookup a v).
Proof.
  induction items as [|[label u0] items IH]; intros v v' a Hnd Hv; csimpl in *.
  - injection Hv as <-. split; [by intros u ?%elem_of_nil | done].
  - apply NoDup_cons in Hnd as [Hlabel Hnd].
    apply bind_Ok in Hv as (d0 & Hd0 & Hv).
    destruct (IH _ _ a Hnd Hv) as [Hin Hout]. split.
    + intros u [[= -> ->]|Hu]%elem_of_cons.
      * exists d0. split; [done|].
        rewrite (Hout Hlabel), dict_lookup_set, decide_True; done.
      * by apply Hin.
    + intros [Hne Ha]%not_elem_of_cons.
      rewrite (Hout Ha), dict_lookup_set, decide_False; done.
Qed.

Lemma catalog_at_lookup (h : list obj) (c : catalog) (v : list (string * assembly))
    (a : string) (d : assembly) :
  catalog_at h c v -> Py.dict_lookup a v = Some d ->
  exists entry, Py.dict_lookup a c = Some entry /\ entry_at h entry d.
Proof.
  induction 1 as [|[k e] [k' d'] c v [Hk He] _ IH]; simpl in *; [done|].
  subst k'. case_decide; [|done].
  intros [= <-]. by exists e.
Qed.

(** The lists of two labels of a catalog are different objects. *)
Lemma entry_locs_catalog (c : catalog) (a : string) (ea : list (string * val)) :
  Py.dict_lookup a c = Some ea ->
  (forall l, l ∈ entry_locs ea -> l ∈ catalog_locs c) /\
  (NoDup (catalog_locs c) -> NoDup (entry_locs ea)).
Proof.
  induction c as [|[k e] c IH]; cbn [Py.dict_lookup]; [done|].
  rewrite catalog_locs_cons. case_decide.
  - intros [= ->]. split.
    + intros l Hl. apply elem_of_app. by left.
    + by intros (? & _ & _)%NoDup_app.
  - intros [Hsub Hnd]%IH. split.
    + intros l Hl. apply elem_of_app. right. by apply Hsub.
    + intros (_ & _ & ?)%NoDup_app. by apply Hnd.
Qed.

Lemma catalog_locs_disjoint (c : catalog) (a b : string) (ea eb : list (string * val)) :
  NoDup (catalog_locs c) -> a <> b ->
  Py.dict_lookup a c = Some ea -> Py.dict_lookup b c = Some eb ->
  NoDup (entry_locs ea ++ entry_locs eb).
Proof.
  intros Hnd Hab. induction c as [|[k e] c IH]; cbn [Py.dict_lookup]; [done|].
  rewrite catalog_locs_cons in Hnd. apply NoDup_app in Hnd as (He & Hdisj & Hc).
  destruct (decide (k = a)) as [->|Hka]; [rewrite decide_False by done|];
    [|destruct (decide (k = b)) as [->|Hkb]].
  - intros [= ->] [Hsub Hndb]%entry_locs_catalog.
    apply NoDup_app. split_and!; [done| |by apply Hndb].
    intros l Hl Hl'. by apply (Hdisj l Hl), Hsub.
  - intros [Hsub Hnda]%entry_locs_catalog [= ->].
    apply NoDup_app. split_and!; [by apply Hnda| |done].
    intros l Hl Hl'. by apply (Hdisj l Hl'), Hsub.
  - by apply IH.
Qed.

(** Reading a list of records, also after an update of another list
    object. *)
Lemma list_at_read (h : list obj) (l : loc) (records : list obj) :
  list_at h l records -> Forall is_dict records ->
  read_list h (VRef l) = Some (dict_items <$> records).
Proof.
  intros (refs & Hl & Hrefs) Hdict. unfold read_list. rewrite Hl.
  apply mapM_Some, Forall2_fmap.
  clear Hl. induction Hrefs as [|r o refs records Hr _ IH]; [constructor|].
  apply Forall_cons in Hdict as [Ho Hdict]. constructor; [|by apply IH].
  simpl. rewrite Hr. by destruct o.
Qed.

Lemma list_at_update (h : list obj) (l l' : loc) (records : list obj)
    (items : list val) (o : obj) :
  list_at h l records -> Forall is_dict records ->
  h !! l' = Some (OList items) -> l <> l' ->
  list_at (<[l' := o]> h) l records.
Proof.
  intros (refs & Hl & Hrefs) Hdict Hl' Hne. exists refs. split.
  - by rewrite list_lookup_insert_ne.
  - clear Hl. induction Hrefs as [|r o' refs records Hr _ IH]; [constructor|].
    apply Forall_cons in Hdict as [Ho Hdict]. constructor; [|by apply IH].
    rewrite list_lookup_insert_ne; [done|].
    intros ->. rewrite Hr in Hl'. injection Hl' as ->. done.
Qed.

Lemma chromosome_records_dicts (items : list (string * Z)) :
  Forall is_dict (chromosome_record <$> items).
Proof. apply Forall_fmap, Forall_true. done. Qed.

Lemma cytoband_records_dicts (bands : list cytoband) :
  Forall is_dict (cytoband_record <$> bands).
Proof. apply Forall_fmap, Forall_true. done. Qed.

(** C1. In the catalog of a successful build, two aliases of one
    assembly have chromosome lists that read as equal sequences of
    records, and cytoband lists that read as equal sequences of records;
    the four lists are four different objects of the heap, and putting
    any other contents into a list of the one alias changes nothing of
    what is read through the other.  The statement is about the list
    objects; it says nothing about the records in them. *)
Theorem C1_alias_lists_equal_and_independent
    (net : remote) (aliases : list (string * string)) (w w' : world)
    (c : catalog) (a b u : string) :
  NoDup aliases.*1 ->
  build_genome_object_from net aliases w = (Ok c, w') ->
  (a, u) ∈ aliases -> (b, u) ∈ aliases -> a <> b ->
  exists (ca ba cb bb : loc) (chromosomes cytobands : list (list (string * val))),
    Py.dict_lookup a c = Some [("chromosomes", VRef ca); ("cytobands", VRef ba)] /\
    Py.dict_lookup b c = Some [("chromosomes", VRef cb); ("cytobands", VRef bb)] /\
    read_list (heap w') (VRef ca) = Some chromosomes /\
    read_list (heap w') (VRef cb) = Some chromosomes /\
    read_list (heap w') (VRef ba) = Some cytobands /\
    read_list (heap w') (VRef bb) = Some cytobands /\
    NoDup [ca; ba; cb; bb] /\
    forall (l : loc) (items : list val), l ∈ [ca; ba] ->
      read_list (<[l := OList items]> (heap w')) (VRef cb) = Some chromosomes /\
      read_list (<[l := OList items]> (heap w')) (VRef bb) = Some cytobands.
Proof.
  intros Hnd Hbuild Ha Hb Hab.
  pose proof (build_spec net aliases w) as Hspec. rewrite Hbuild in Hspec.
  destruct Hspec as (v & keys & Hv & Hcat & Hlocs & _).
  destruct (catalog_data_lookup net aliases [] v a Hnd Hv) as [Hda _].
  destruct (catalog_data_lookup net aliases [] v b Hnd Hv) as [Hdb _].
  destruct (Hda u Ha) as (d & Hd & Hva). destruct (Hdb u Hb) as (d' & Hd' & Hvb).
  assert (d' = d) as -> by congruence.
  destruct (catalog_at_lookup _ _ _ _ _ Hcat Hva) as (ea & Hea & ca & ba & -> & Hca & Hba).
  destruct (catalog_at_lookup _ _ _ _ _ Hcat Hvb) as (eb & Heb & cb & bb & -> & Hcb & Hbb).
  pose proof (catalog_locs_disjoint _ _ _ _ _ Hlocs Hab Hea Heb) as Hdisj.
  change (NoDup [ca; ba; cb; bb]) in Hdisj.
  pose proof (chromosome_records_dicts d.1) as Hcd.
  pose proof (cytoband_records_dicts d.2) as Hbd.
  exists ca, ba, cb, bb, (dict_items <$> (chromosome_record <$> d.1)),
    (dict_items <$> (cytoband_record <$> d.2)).
  split_and!; [done|done|by apply list_at_read..|done|].
  intros l items Hl.
  assert (exists old, heap w' !! l = Some (OList old)) as [old Hold].
  { rewrite !elem_of_cons, elem_of_nil in Hl.
    destruct Hl as [->|[->|[]]];
      [destruct Hca as (? & ? & _) | destruct Hba as (? & ? & _)]; by eexists. }
  assert (cb <> l /\ bb <> l) as [Hcl Hbl].
  { apply NoDup_cons in Hdisj as [H1 Hdisj]. apply NoDup_cons in Hdisj as [H2 _].
    rewrite !not_elem_of_cons in H1. rewrite !not_elem_of_cons in H2.
    destruct H1 as (? & ? & ? & _), H2 as (? & ? & _).
    rewrite !elem_of_cons, elem_of_nil in Hl.
    destruct Hl as [->|[->|[]]]; split; congruence. }
  split; apply list_at_read; try done; by eapply list_at_update.
Qed.

Lemma C1_witness :
  exists ca cb : loc, ca <> cb.
Proof.
  pose (net := constant_remote (tsv [["chr1"; "248956422"]])
                 (tsv [["chr1"; "0"; "2300000"; "p36.33"; "gneg"]])).
  pose (run := build_genome_object net (World [] [])).
  destruct (C1_alias_lists_equal_and_independent net ASSEMBLY_ALIAS (World [] [])
              run.2 (match run.1 with Ok c => c | Raise _ => [] end)
              "hg38" "grch38" "hg38")
    as (ca & ba & cb & bb & _ & _ & _ & _ & _ & _ & _ & _ & Hnd & _).
  - apply (bool_decide_unpack _). vm_compute. exact I.
  - vm_compute. reflexivity.
  - apply (bool_decide_unpack _). vm_compute. exact I.
  - apply (bool_decide_unpack _). vm_compute. exact I.
  - apply (bool_decide_unpack _). vm_compute. exact I.
  - exists ca, cb. apply NoDup_cons in Hnd as [Hnd _].
    rewrite !not_elem_of_cons in Hnd. intros ->. by destruct Hnd as (_ & ? & _).
Defined.

(** The copies are shallow: in the catalog of [ASSEMBLY_ALIAS] the lists
    of "hg38" are the objects 4 and 5 and those of "grch38" the objects
    6 and 7; the objects 4 and 6 hold the same reference to the record
    0, and the objects 5 and 7 the same reference to the record 2. *)
Example alias_lists_share_records :
  build_genome_object
    (constant_remote (tsv [["chr1"; "248956422"]])
       (tsv [["chr1"; "0"; "2300000"; "p36.33"; "gneg"]]))
    (World [] [])
  = (Ok [("hg38", [("chromosomes", VRef 4%nat); ("cytobands", VRef 5%nat)]);
         ("grch38", [("chromosomes", VRef 6%nat); ("cytobands", VRef 7%nat)]);
         ("hg19", [("chromosomes", VRef 12%nat); ("cytobands", VRef 13%nat)]);
         ("grch37", [("chromosomes", VRef 14%nat); ("cytobands", VRef 15%nat)])],
     World
       [ODict [("chromosome", VStr "1"); ("length", VInt 248956422)];
        OList [VRef 0%nat];
        ODict [("chrom", VStr "chr1"); ("chromStart", VInt 0);
               ("chromEnd", VInt 2300000); ("name", VStr "p36.33");
               ("stain", VStr "gneg")];
        OList [VRef 2%nat];
        OList [VRef 0%nat]; OList [VRef 2%nat];
        OList [VRef 0%nat]; OList [VRef 2%nat];
        ODict [("chromosome", VStr "1"); ("length", VInt 248956422)];
        OList [VRef 8%nat];
        ODict [("chrom", VStr "chr1"); ("chromStart", VInt 0);
               ("chromEnd", VInt 2300000); ("name", VStr "p36.33");
               ("stain", VStr "gneg")];
        OList [VRef 10%nat];
        OList [VRef 8%nat]; OList [VRef 10%nat];
        OList [VRef 8%nat]; OList [VRef 10%nat]]
       [chrom_sizes_url "hg38"; cytoband_url "hg38";
        chrom_sizes_url "hg19"; cytoband_url "hg19"]).
Proof. vm_compute. reflexivity. Qed.

(** ** Serialization *)

(** What is read from the heap is the JSON value of the data. *)
Lemma list_json_at {A} (h : list obj) (l : loc) (record : A -> obj)
    (to_json : A -> json) (xs : list A) :
  (forall x, is_dict (record x) /\ record_json (dict_items (record x)) = Some (to_json x)) ->
  list_at h l (record <$> xs) ->
  list_json h (VRef l) = Some (JList (to_json <$> xs)).
Proof.
  intros Hrec Hl. unfold list_json.
  rewrite (list_at_read h l (record <$> xs) Hl).
  - simpl. replace (mapM record_json (dict_items <$> (record <$> xs)))
      with (Some (to_json <$> xs)); [done|].
    symmetry. apply mapM_Some. rewrite <- list_fmap_compose.
    apply Forall2_fmap, Forall_Forall2_diag, Forall_true.
    intros x. apply Hrec.
  - apply Forall_fmap, Forall_true. intros x. apply Hrec.
Qed.

Lemma entry_json_at (h : list obj) (entry : list (string * val)) (d : assembly) :
  entry_at h entry d -> entry_json h entry = Some (assembly_json d).
Proof.
  intros (lc & lb & -> & Hc & Hb). unfold entry_json. simpl.
  rewrite (list_json_at h lc chromosome_record chromosome_json d.1), 
    (list_json_at h lb cytoband_record cytoband_json d.2); done.
Qed.

Lemma catalog_json_at (h : list obj) (c : catalog) (v : list (string * assembly)) :
  catalog_at h c v -> catalog_json h c = Some (data_json v).
Proof.
  intros Hc. unfold catalog_json, data_json.
  replace (mapM (fun kv : string * list (string * val) =>
                   pair kv.1 <$> entry_json h kv.2) c)
    with (Some ((fun kv : string * assembly => (kv.1, assembly_json kv.2)) <$> v));
    [done|].
  symmetry. apply mapM_Some, Forall2_fmap_r.
  eapply Forall2_impl; [exact Hc|].
  intros [k e] [k' d] [Hk He]; simpl in *. subst k'.
  by rewrite (entry_json_at h e d He).
Qed.

(** What the script writes is a function of [catalog_data]. *)
Lemma main_output_spec (net : remote) (aliases : list (string * string)) (w : world) :
  main_output net aliases w
  = v ← catalog_data net [] aliases; mret (dumps 0 (data_json v)).
Proof.
  unfold main_output. pose proof (build_spec net aliases w) as Hb.
  destruct (build_genome_object_from net aliases w) as [[c|e] w'].
  - destruct Hb as (v & keys & -> & Hc & _).
    by rewrite (catalog_json_at _ _ _ Hc).
  - by destruct Hb as (-> & _).
Qed.

Lemma assembly_data_ext (net1 net2 : remote) (u : string) :
  remote_text net1 (chrom_sizes_url u) = remote_text net2 (chrom_sizes_url u) ->
  remote_gzip_text net1 (cytoband_url u) = remote_gzip_text net2 (cytoband_url u) ->
  assembly_data net1 u = assembly_data net2 u.
Proof. unfold assembly_data. by intros -> ->. Qed.

Lemma catalog_data_ext (net1 net2 : remote) (items : list (string * string)) :
  (forall u, u ∈ items.*2 -> assembly_data net1 u = assembly_data net2 u) ->
  forall v, catalog_data net1 v items = catalog_data net2 v items.
Proof.
  induction items as [|[label u] items IH]; intros Hext v; simpl; [done|].
  rewrite (Hext u) by (apply elem_of_cons; by left).
  destruct (assembly_data net2 u) as [d|]; simpl; [|done].
  apply IH. intros u' Hu'. apply Hext, elem_of_cons. by right.
Qed.

(** C8. Two builds for the same aliases give the same result, whatever
    the heaps and the earlier requests they start from, as soon as the
    repository answers their requests with the same texts: both fail
    with the same exception, or both succeed, and then the catalogs
    they leave in their heaps are the same value and the texts written
    from them are the same, character for character. *)
Theorem C8_build_deterministic
    (net1 net2 : remote) (aliases : list (string * string)) (w1 w2 : world) :
  (forall u, u ∈ aliases.*2 ->
     remote_text net1 (chrom_sizes_url u) = remote_text net2 (chrom_sizes_url u) /\
     remote_gzip_text net1 (cytoband_url u) = remote_gzip_text net2 (cytoband_url u)) ->
  main_output net1 aliases w1 = main_output net2 aliases w2 /\
  is_ok (main_output net1 aliases w1)
  = is_ok (build_genome_object_from net1 aliases w1).1 /\
  match build_genome_object_from net1 aliases w1,
        build_genome_object_from net2 aliases w2 with
  | (Ok c1, w1'), (Ok c2, w2') =>
      exists j, catalog_json (heap w1') c1 = Some j /\
                catalog_json (heap w2') c2 = Some j
  | (Raise e1, _), (Raise e2, _) => e1 = e2
  | _, _ => False
  end.
Proof.
  intros Hsame.
  assert (Hdata : catalog_data net1 [] aliases = catalog_data net2 [] aliases).
  { apply catalog_data_ext. intros u Hu. destruct (Hsame u Hu).
    by apply assembly_data_ext. }
  pose proof (build_spec net1 aliases w1) as Hb1.
  pose proof (build_spec net2 aliases w2) as Hb2.
  pose proof (main_output_spec net1 aliases w1) as Hm1.
  split_and!.
  - by rewrite !main_output_spec, Hdata.
  - rewrite Hm1.
    destruct (build_genome_object_from net1 aliases w1) as [[c1|e1] w1'].
    + by destruct Hb1 as (v & keys & -> & _).
    + by destruct Hb1 as (-> & _).
  - destruct (build_genome_object_from net1 aliases w1) as [[c1|e1] w1'],
      (build_genome_object_from net2 aliases w2) as [[c2|e2] w2'].
    + destruct Hb1 as (v1 & ? & Hv1 & Hc1 & _), Hb2 as (v2 & ? & Hv2 & Hc2 & _).
      assert (v2 = v1) as -> by congruence.
      exists (data_json v1). split; by apply catalog_json_at.
    + destruct Hb1 as (v1 & ? & Hv1 & _), Hb2 as (Hv2 & _). congruence.
    + destruct Hb1 as (Hv1 & _), Hb2 as (v2 & ? & Hv2 & _). congruence.
    + destruct Hb1 as (Hv1 & _), Hb2 as (Hv2 & _). congruence.
Qed.

Lemma C8_witness :
  main_output (constant_remote (tsv [["chr1"; "248956422"]]) "") ASSEMBLY_ALIAS
    (World [] [])
  = main_output (constant_remote (tsv [["chr1"; "248956422"]]) "") ASSEMBLY_ALIAS
      (World [OList []; ODict []] ["https://example.org/"]).
Proof.
  destruct (C8_build_deterministic
              (constant_remote (tsv [["chr1"; "248956422"]]) "")
              (constant_remote (tsv [["chr1"; "248956422"]]) "")
              ASSEMBLY_ALIAS (World [] [])
              (World [OList []; ODict []] ["https://example.org/"]))
    as [H _]; [|exact H].
  intros u _. split; reflexivity.
Defined.

Lemma C9_witness :
  exists new,
    requests (build_genome_object_from (constant_remote "" "") ASSEMBLY_ALIAS
                (World [] [])).2 = [] ++ new /\
    count_occ string_dec new (chrom_sizes_url "hg19") = 1%nat.
Proof.
  destruct (C9_one_fetch_pair_per_assembly (constant_remote "" "") ASSEMBLY_ALIAS
              (World [] [])) as (new & Hnew & _ & _ & _ & Hall & _).
  exists new. split; [exact Hnew|].
  apply Hall; [vm_compute; reflexivity|].
  apply (bool_decide_unpack _). vm_compute. exact I.
Defined.

(** ** Malformed input *)

Lemma line_entry_bad_fields (line : string) :
  nonblank line -> length (Py.split Py.TAB line) <> 2%nat ->
  is_ok (line_entry line) = false.
Proof.
  unfold nonblank, line_entry. intros -> Hlen.
  by destruct (Py.split Py.TAB line) as [|chrom [|size_str [|? ?]]].
Qed.

Lemma cytoband_line_bad_fields (line : string) :
  nonblank line -> length (Py.split Py.TAB line) <> 5%nat ->
  is_ok (cytoband_line [] line) = false.
Proof.
  unfold nonblank, cytoband_line. intros -> Hlen.
  by destruct (Py.split Py.TAB line) as [|c [|s [|e [|n [|st [|? ?]]]]]].
Qed.

Lemma cytoband_line_bad_int (line c s e n st : string) :
  nonblank line -> Py.split Py.TAB line = [c; s; e; n; st] ->
  is_ok (Py.int s) = false \/ is_ok (Py.int e) = false ->
  is_ok (cytoband_line [] line) = false.
Proof.
  unfold nonblank, cytoband_line. intros -> -> Hint.
  destruct (Py.int s); simpl; [|done].
  destruct (Py.int e); simpl; [|done]. by destruct Hint.
Qed.

Lemma parse_cytobands_raise (text line : string) :
  line ∈ Py.splitlines text -> is_ok (cytoband_line [] line) = false ->
  parse_cytobands text = Raise ValueError.
Proof.
  intros Hin Hline. unfold parse_cytobands.
  destruct (cytoband_lines [] (Py.splitlines text)) as [recs|e] eqn:Hp.
  - assert (is_ok (cytoband_lines [] (Py.splitlines text)) = true) as Hok
      by by rewrite Hp.
    apply cytoband_lines_is_ok in Hok.
    eapply Forall_forall in Hok; [|exact Hin]. congruence.
  - by apply cytoband_lines_error in Hp as ->.
Qed.

Lemma assembly_data_error (net : remote) (u : string) (e : exn) :
  assembly_data net u = Raise e ->
  e = ValueError \/ remote_text net (chrom_sizes_url u) = Raise e \/
  remote_gzip_text net (cytoband_url u) = Raise e.
Proof.
  unfold assembly_data.
  destruct (remote_text net (chrom_sizes_url u)) as [text|e1]; simpl;
    [|intros [= ->]; auto].
  destruct (parse_chromosome_sizes text) as [items|e1] eqn:H1; simpl.
  - destruct (remote_gzip_text net (cytoband_url u)) as [text'|e2]; simpl;
      [|intros [= ->]; auto].
    destruct (parse_cytobands text') as [bands|e2] eqn:H2; simpl; [done|].
    intros [= <-]. left. by eapply cytoband_lines_error.
  - intros [= <-]. left. by eapply parse_chromosome_sizes_error.
Qed.

Lemma catalog_data_error (net : remote) (items : list (string * string)) (e : exn) :
  forall v, catalog_data net v items = Raise e ->
            exists u, u ∈ items.*2 /\ assembly_data net u = Raise e.
Proof.
  induction items as [|[label u] items IH]; intros v; simpl; [done|].
  destruct (assembly_data net u) as [d|e'] eqn:Hd; simpl.
  - intros (u' & ? & ?)%IH. exists u'. split; [apply elem_of_cons; by right | done].
  - intros [= ->]. exists u. split; [apply elem_of_cons; by left | done].
Qed.

Lemma catalog_data_raise (net : remote) (items : list (string * string))
    (label u : string) :
  (label, u) ∈ items -> is_ok (assembly_data net u) = false ->
  forall v, is_ok (catalog_data net v items) = false.
Proof.
  induction items as [|[label' u'] items IH]; intros Hin Hu v; simpl.
  - by apply elem_of_nil in Hin.
  - apply elem_of_cons in Hin as [[= <- <-]|Hin].
    + by destruct (assembly_data net u).
    + destruct (assembly_data net u'); simpl; [by apply IH | done].
Qed.

Lemma malformed_input_data (net : remote) (u : string) :
  malformed_input net u -> is_ok (assembly_data net u) = false.
Proof.
  unfold assembly_data. intros [(text & -> & Hp)|(text & -> & Hp)]; simpl.
  - by destruct (parse_chromosome_sizes text).
  - destruct (remote_text net (chrom_sizes_url u) ≫= parse_chromosome_sizes);
      simpl; [|done].
    by destruct (parse_cytobands text).
Qed.

(** C4, as the code has it.  A line that is not blank and has not
    exactly two tab-separated fields makes [parse_chromosome_sizes]
    raise [ValueError], and so does a second field that is not an
    integer literal when the first is a canonical label; a line that is
    not blank and has not exactly five fields, or whose second or third
    field is not an integer literal, makes [parse_cytobands] raise
    [ValueError].  When a text of an assembly that an alias refers to
    has arrived and does not parse, the build raises an exception and
    returns no catalog, and nothing is written; the exception is
    [ValueError] when no request fails.  With the chromosome sizes
    "chr1<TAB>1000<TAB>extra" the build raises [ValueError]. *)
Theorem C4_malformed_input_aborts :
  (forall text line : string,
     line ∈ Py.splitlines text -> nonblank line ->
     length (Py.split Py.TAB line) <> 2%nat ->
     parse_chromosome_sizes text = Raise ValueError) /\
  (forall text line chrom size_str : string,
     line ∈ Py.splitlines text -> nonblank line ->
     Py.split Py.TAB line = [chrom; size_str] -> chrom ∈ CANONICAL_CHROMS ->
     is_ok (Py.int size_str) = false ->
     parse_chromosome_sizes text = Raise ValueError) /\
  (forall text line : string,
     line ∈ Py.splitlines text -> nonblank line ->
     length (Py.split Py.TAB line) <> 5%nat ->
     parse_cytobands text = Raise ValueError) /\
  (forall text line c s e n st : string,
     line ∈ Py.splitlines text -> nonblank line ->
     Py.split Py.TAB line = [c; s; e; n; st] ->
     is_ok (Py.int s) = false \/ is_ok (Py.int e) = false ->
     parse_cytobands text = Raise ValueError) /\
  (forall (net : remote) (aliases : list (string * string)) (w : world)
          (label u : string),
     (label, u) ∈ aliases -> malformed_input net u ->
     exists e,
       (build_genome_object_from net aliases w).1 = Raise e /\
       main_output net aliases w = Raise e /\
       ((forall url, is_ok (remote_text net url) = true) ->
        (forall url, is_ok (remote_gzip_text net url) = true) ->
        e = ValueError)) /\
  (build_genome_object
     (constant_remote (tsv [["chr1"; "1000"; "extra"]])
        (tsv [["chr1"; "0"; "2300000"; "p36.33"; "gneg"]]))
     (World [] [])).1 = Raise ValueError.
Proof.
  split_and!; [| | | | |reflexivity].
  - intros text line Hin Hnb Hlen.
    eapply parse_chromosome_sizes_raise; [exact Hin|].
    by apply line_entry_bad_fields.
  - intros text line chrom size_str Hin Hnb Hsp Hc Hi.
    eapply parse_chromosome_sizes_raise; [exact Hin|].
    by eapply line_entry_bad_size.
  - intros text line Hin Hnb Hlen.
    eapply parse_cytobands_raise; [exact Hin|].
    by apply cytoband_line_bad_fields.
  - intros text line c s e n st Hin Hnb Hsp Hi.
    eapply parse_cytobands_raise; [exact Hin|].
    by eapply cytoband_line_bad_int.
  - intros net aliases w label u Hin Hbad%malformed_input_data.
    pose proof (catalog_data_raise net aliases label u Hin Hbad []) as Hdata.
    destruct (catalog_data net [] aliases) as [v|e] eqn:Hv; [done|].
    exists e. split_and!.
    + pose proof (build_spec net aliases w) as Hb.
      destruct (build_genome_object_from net aliases w) as [[c|e'] w'].
      * destruct Hb as (v & ? & Hv' & _). congruence.
      * destruct Hb as (Hv' & _). simpl. congruence.
    + by rewrite main_output_spec, Hv.
    + intros Htext Hgzip.
      apply catalog_data_error in Hv as (u' & _ & Hu').
      apply assembly_data_error in Hu' as [?|[Hu'|Hu']]; [done| |].
      * specialize (Htext (chrom_sizes_url u')). by rewrite Hu' in Htext.
      * specialize (Hgzip (cytoband_url u')). by rewrite Hu' in Hgzip.
Qed.

Lemma C4_witness :
  parse_chromosome_sizes (tsv [["chr1"; "1000"; "extra"]]) = Raise ValueError.
Proof.
  destruct C4_malformed_input_aborts as [H _].
  apply (H _ ("chr1" +:+ String Py.TAB "1000" +:+ String Py.TAB "extra")).
  - apply (bool_decide_unpack _). vm_compute. exact I.
  - reflexivity.
  - vm_compute. lia.
Defined.

(** C4 fails as it is stated: the second field of a line whose label
    is not canonical is never read, so a text with such a field that is
    not an integer parses, and the build with it succeeds. *)
Lemma C4_counterexample :
  Py.splitlines (tsv [["chrUn_KI270302v1"; "abc"]])
  = ["chrUn_KI270302v1" +:+ String Py.TAB "abc"] /\
  Py.split Py.TAB ("chrUn_KI270302v1" +:+ String Py.TAB "abc")
  = ["chrUn_KI270302v1"; "abc"] /\
  Py.int "abc" = Raise ValueError /\
  parse_chromosome_sizes (tsv [["chrUn_KI270302v1"; "abc"]]) = Ok [] /\
  is_ok (build_genome_object
           (constant_remote (tsv [["chrUn_KI270302v1"; "abc"]]) "")
           (World [] [])).1 = true /\
  ~ (forall text line chrom size_str : string,
       line ∈ Py.splitlines text -> nonblank line ->
       Py.split Py.TAB line = [chrom; size_str] ->
       is_ok (Py.int size_str) = false ->
       is_ok (parse_chromosome_sizes text) = false).
Proof.
  split_and!; [reflexivity..|].
  intros H.
  specialize (H (tsv [["chrUn_KI270302v1"; "abc"]])
                ("chrUn_KI270302v1" +:+ String Py.TAB "abc")
                "chrUn_KI270302v1" "abc").
  assert (true = false) as Habs; [|discriminate].
  apply H; [|reflexivity..].
  apply (bool_decide_unpack _). vm_compute. exact I.
Qed.

(** * Further properties *)

(** ** The order of the chromosomes *)

Lemma display_labels_eq :
  display_labels
  = ["1"; "2"; "3"; "4"; "5"; "6"; "7"; "8"; "9"; "10"; "11"; "12"; "13"; "14";
     "15"; "16"; "17"; "18"; "19"; "20"; "21"; "22"; "X"; "Y"; "M"].
Proof. reflexivity. Qed.

Lemma display_labels_sorted : StronglySorted label_le display_labels.
Proof. apply (bool_decide_unpack _). vm_compute. exact I. Qed.

Lemma display_labels_NoDup : NoDup display_labels.
Proof. apply (bool_decide_unpack _). vm_compute. exact I. Qed.

Lemma label_key_inj (a b : string) :
  a ∈ display_labels -> b ∈ display_labels -> label_key a = label_key b -> a = b.
Proof.
  assert (H : Forall (fun a => Forall (fun b => label_key a = label_key b -> a = b)
                                display_labels) display_labels).
  { apply (bool_decide_unpack _). vm_compute. exact I. }
  intros Ha Hb. eapply Forall_forall in H; [|exact Ha].
  eapply Forall_forall in H; [|exact Hb]. exact H.
Qed.

Lemma label_le_antisym (a b : string) :
  a ∈ display_labels -> b ∈ display_labels -> label_le a b -> label_le b a -> a = b.
Proof.
  intros Ha Hb Hab Hba. apply label_key_inj; [done..|].
  unfold label_le in *. rewrite key_le_spec in Hab, Hba.
  destruct (label_key a), (label_key b). simpl in *. f_equal; lia.
Qed.

Lemma StronglySorted_filter {A} (R : relation A) (P : A -> Prop)
    `{!forall x, Decision (P x)} (l : list A) :
  StronglySorted R l -> StronglySorted R (filter P l).
Proof.
  induction 1 as [|x l Hl IH Hx]; [constructor|].
  rewrite filter_cons. case_decide; [|done].
  constructor; [done|].
  apply Forall_forall. intros y [_ Hy]%list_elem_of_filter.
  by eapply Forall_forall in Hx.
Qed.

Lemma StronglySorted_fmap_inv {A B} (f : A -> B) (R : relation B) (l : list A) :
  StronglySorted R (f <$> l) -> StronglySorted (fun a b => R (f a) (f b)) l.
Proof.
  induction l as [|x l IH]; csimpl; [constructor|].
  intros [Hx Hl]%StronglySorted_cons. constructor; [by apply IH|].
  apply Forall_forall. intros y Hy.
  eapply Forall_forall in Hx; [exact Hx|]. by apply list_elem_of_fmap_2.
Qed.

(** The labels of a successful parse ascend in the order of the labels. *)
Lemma parse_chromosome_sizes_sorted (text : string) (recs : list (string * Z)) :
  parse_chromosome_sizes text = Ok recs ->
  StronglySorted (fun a b : string * Z => label_le a.1 b.1) recs.
Proof.
  intros (es & _ & _ & keys & Hkeys & Hsorted)%parse_chromosome_sizes_Ok.
  assert (keys = (fun kv : string * Z => label_key kv.1) <$> recs) as ->.
  { clear Hsorted. induction Hkeys as [|kv k recs keys Hk _ IH]; csimpl; [done|].
    unfold label_key at 1. by rewrite Hk, IH. }
  by apply StronglySorted_fmap_inv in Hsorted.
Qed.

(** X1. The labels of the records of [parse_chromosome_sizes] are
    those of 1, 2, ..., 22, X, Y, M that have a record, in this order;
    so the result is determined by its records, whatever the order of
    the lines they came from. *)
Theorem chromosome_order_canonical :
  (forall (text : string) (recs : list (string * Z)),
     parse_chromosome_sizes text = Ok recs ->
     recs.*1 = filter (fun n => n ∈ recs.*1) display_labels /\
     recs.*1 `sublist_of`
       ["1"; "2"; "3"; "4"; "5"; "6"; "7"; "8"; "9"; "10"; "11"; "12"; "13";
        "14"; "15"; "16"; "17"; "18"; "19"; "20"; "21"; "22"; "X"; "Y"; "M"]) /\
  (forall (text1 text2 : string) (recs1 recs2 : list (string * Z)),
     parse_chromosome_sizes text1 = Ok recs1 ->
     parse_chromosome_sizes text2 = Ok recs2 ->
     recs1 ≡ₚ recs2 -> recs1 = recs2).
Proof.
  split.
  - intros text recs Hp.
    destruct (parse_chromosome_sizes_labels _ _ Hp) as [Hnd Hsub].
    assert (Heq : recs.*1 = filter (fun n => n ∈ recs.*1) display_labels).
    { apply (StronglySorted_unique_strong label_le).
      - intros a b Ha Hb. apply label_le_antisym; [by apply Hsub|].
        by apply list_elem_of_filter in Hb as [_ ?].
      - apply parse_chromosome_sizes_sorted in Hp.
        clear -Hp. induction Hp as [|kv recs _ IH Hkv]; csimpl; constructor; [done|].
        by apply Forall_fmap.
      - apply StronglySorted_filter, display_labels_sorted.
      - apply NoDup_Permutation; [done|apply NoDup_filter, display_labels_NoDup|].
        intros n. rewrite list_elem_of_filter.
        split; [intros Hn; split; [done | by apply Hsub] | by intros [? _]]. }
    split; [done|]. rewrite <- display_labels_eq, Heq. apply sublist_filter.
  - intros text1 text2 recs1 recs2 Hp1 Hp2 Hperm.
    destruct (parse_chromosome_sizes_labels _ _ Hp1) as [Hnd Hsub].
    apply (StronglySorted_unique_strong (fun a b : string * Z => label_le a.1 b.1));
      [|by eapply parse_chromosome_sizes_sorted..|done].
    intros [n1 z1] [n2 z2] H1 H2 Hle Hge. rewrite <- Hperm in H2. simpl in *.
    assert (n1 = n2) as <-.
    { apply label_le_antisym; [| |done..]; apply Hsub, list_elem_of_fmap;
        [by exists (n1, z1) | by exists (n2, z2)]. }
    f_equal. apply dict_lookup_elem_of in H1, H2; [|done..]. congruence.
Qed.

Lemma chromosome_order_canonical_witness :
  [("2", 7%Z); ("X", 5%Z)].*1 `sublist_of`
    ["1"; "2"; "3"; "4"; "5"; "6"; "7"; "8"; "9"; "10"; "11"; "12"; "13";
     "14"; "15"; "16"; "17"; "18"; "19"; "20"; "21"; "22"; "X"; "Y"; "M"].
Proof.
  destruct chromosome_order_canonical as [H _].
  apply (H (tsv [["chrX"; "5"]; ["chr2"; "7"]])). reflexivity.
Defined.

(** ** The key of a label of digits *)









(** ** Blank lines and labels without the prefix *)

Lemma all_space_blank (line : string) : all_space line -> ~ nonblank line.
Proof.
  unfold all_space, nonblank, Py.strip, Py.strip_by. intros Hs.
  assert (Py.lstrip_by Py.isspace line = "") as ->; [|done].
  induction line as [|c line IH]; simpl; [done|].
  apply Forall_cons in Hs as [-> Hs]. by apply IH.
Qed.

Lemma chrom_sizes_line_blank (chrom_map : list (string * Z)) (line : string) :
  ~ nonblank line -> chrom_sizes_line chrom_map line = Ok chrom_map.
Proof.
  unfold nonblank, chrom_sizes_line. by destruct (Py.is_empty (Py.strip line)).
Qed.

Lemma cytoband_line_blank (cytobands : list cytoband) (line : string) :
  ~ nonblank line -> cytoband_line cytobands line = Ok cytobands.
Proof.
  unfold nonblank, cytoband_line. by destruct (Py.is_empty (Py.strip line)).
Qed.

Lemma cytoband_lines_app (cytobands : list cytoband) (l1 l2 : list string) :
  cytoband_lines cytobands (l1 ++ l2)
  = cytobands' ← cytoband_lines cytobands l1; cytoband_lines cytobands' l2.
Proof.
  revert cytobands; induction l1 as [|line l1 IH]; intros bs; simpl; [done|].
  destruct (cytoband_line bs line) as [bs'|]; simpl; [apply IH | done].
Qed.

(** X3. A line of white space only is skipped by both loops, wherever
    it stands: the result with it is the result without it, and a text
    of such lines only gives the empty list for the chromosome sizes
    and for the cytobands. *)
Theorem blank_lines_skipped :
  (forall (line : string) (l1 l2 : list string),
     all_space line ->
     (forall chrom_map,
        chrom_sizes_lines chrom_map (l1 ++ line :: l2)
        = chrom_sizes_lines chrom_map (l1 ++ l2)) /\
     (forall cytobands,
        cytoband_lines cytobands (l1 ++ line :: l2)
        = cytoband_lines cytobands (l1 ++ l2))) /\
  (forall text : string,
     Forall all_space (Py.splitlines text) ->
     parse_chromosome_sizes text = Ok [] /\ parse_cytobands text = Ok []).
Proof.
  split.
  - intros line l1 l2 Hb%all_space_blank. split.
    + intros m. rewrite !chrom_sizes_lines_app.
      destruct (chrom_sizes_lines m l1) as [m'|]; simpl; [|done].
      by rewrite chrom_sizes_line_blank.
    + intros bs. rewrite !cytoband_lines_app.
      destruct (cytoband_lines bs l1) as [bs'|]; simpl; [|done].
      by rewrite cytoband_line_blank.
  - intros text Hall. unfold parse_chromosome_sizes, parse_cytobands.
    assert (chrom_sizes_lines [] (Py.splitlines text) = Ok []) as ->.
    { induction Hall as [|line lines Hl%all_space_blank _ IH]; simpl; [done|].
      by rewrite chrom_sizes_line_blank. }
    split; [reflexivity|].
    induction Hall as [|line lines Hl%all_space_blank _ IH]; simpl; [done|].
    by rewrite cytoband_line_blank.
Qed.

Lemma blank_lines_skipped_witness :
  parse_chromosome_sizes (tsv [[" "; " "]; []; ["  "]]) = Ok [] /\
  parse_cytobands (tsv [[" "; " "]; []; ["  "]]) = Ok [].
Proof.
  destruct blank_lines_skipped as [_ H]. apply H.
  apply (bool_decide_unpack _). vm_compute. exact I.
Defined.

Lemma canonical_startswith (chrom : string) :
  chrom ∈ CANONICAL_CHROMS -> Py.startswith "chr" chrom = true.
Proof.
  rewrite elem_of_CANONICAL_CHROMS. unfold canonical_list. cbn [fmap list_fmap seq app].
  rewrite !elem_of_cons, elem_of_nil.
  intros H; repeat (destruct H as [->|H]; [reflexivity|]); destruct H.
Qed.

(** X4. A line with two fields whose label does not start with "chr"
    is dropped without an error; a text of such lines and of blank
    lines gives no chromosome at all.  The branch that keeps a label
    without the prefix as it is (lines 69 and 70) is never taken: every
    label that passes the filter starts with "chr". *)
Theorem unprefixed_labels_dropped :
  (forall chrom : string,
     chrom ∈ CANONICAL_CHROMS -> Py.startswith "chr" chrom = true) /\
  (forall (chrom_map : list (string * Z)) (line chrom size_str : string),
     Py.split Py.TAB line = [chrom; size_str] ->
     Py.startswith "chr" chrom = false ->
     chrom_sizes_line chrom_map line = Ok chrom_map) /\
  (forall text : string,
     Forall (fun line =>
               ~ nonblank line \/
               exists chrom size_str,
                 Py.split Py.TAB line = [chrom; size_str] /\
                 Py.startswith "chr" chrom = false) (Py.splitlines text) ->
     parse_chromosome_sizes text = Ok []).
Proof.
  assert (Hskip : forall (chrom_map : list (string * Z)) (line chrom size_str : string),
            Py.split Py.TAB line = [chrom; size_str] ->
            Py.startswith "chr" chrom = false ->
            chrom_sizes_line chrom_map line = Ok chrom_map).
  { intros m line chrom size_str Hsp Hpre.
    apply (chrom_sizes_line_skip m line chrom size_str Hsp).
    intros Hc%canonical_startswith. congruence. }
  split_and!; [apply canonical_startswith | exact Hskip |].
  intros text Hall. unfold parse_chromosome_sizes.
  assert (chrom_sizes_lines [] (Py.splitlines text) = Ok []) as ->; [|reflexivity].
  induction Hall as [|line lines Hl _ IH]; simpl; [done|].
  destruct Hl as [Hb|(chrom & size_str & Hsp & Hpre)].
  - by rewrite chrom_sizes_line_blank.
  - by rewrite (Hskip [] line chrom size_str).
Qed.

Lemma unprefixed_labels_dropped_witness :
  parse_chromosome_sizes (tsv [["1"; "248956422"]; ["MT"; "16569"]; []]) = Ok [].
Proof.
  destruct unprefixed_labels_dropped as (_ & _ & H). apply H.
  change (Py.splitlines (tsv [["1"; "248956422"]; ["MT"; "16569"]; []]))
    with ["1" +:+ String Py.TAB "248956422"; "MT" +:+ String Py.TAB "16569"; ""].
  apply Forall_cons; split; [|apply Forall_cons; split; [|apply Forall_cons; split]].
  - right. by exists "1", "248956422".
  - right. by exists "MT", "16569".
  - left. by vm_compute.
  - apply Forall_nil_2.
Defined.

(** ** What the loaders return *)

Lemma list_json_alloc {A} (h : list obj) (record : A -> obj) (to_json : A -> json)
    (xs : list A) :
  (forall x, is_dict (record x) /\
             record_json (dict_items (record x)) = Some (to_json x)) ->
  list_json (h ++ (record <$> xs) ++ [list_object h (record <$> xs)])
    (VRef (length h + length (record <$> xs))%nat)
  = Some (JList (to_json <$> xs)).
Proof.
  intros Hrec. apply (list_json_at _ _ record to_json xs Hrec), list_at_alloc.
Qed.

(** X5. [load_chromosomes] makes one request, for the URL of the
    chromosome sizes of the assembly.  When it returns, it returns a
    new list object, after the objects that were there and leaving them
    as they were, and the list reads as the records of
    [parse_chromosome_sizes], each a dictionary with the keys
    "chromosome" and "length" in this order; when the request or the
    parse fails, it raises their exception and leaves the heap as it
    was. *)
Theorem load_chromosomes_returns (net : remote) (u : string) (w : world) :
  match load_chromosomes net u w with
  | (Ok l, w') =>
      exists text items ext,
        remote_text net (chrom_sizes_url u) = Ok text /\
        parse_chromosome_sizes text = Ok items /\
        list_json (heap w') (VRef l)
        = Some (JList ((fun kv : string * Z =>
                          JDict [("chromosome", JStr kv.1); ("length", JInt kv.2)])
                       <$> items)) /\
        heap w' = heap w ++ ext /\ (length (heap w) <= l)%nat /\
        requests w' = requests w ++ [chrom_sizes_url u]
  | (Raise e, w') =>
      remote_text net (chrom_sizes_url u) ≫= parse_chromosome_sizes = Raise e /\
      heap w' = heap w /\
      requests w' = requests w ++ [chrom_sizes_url u]
  end.
Proof.
  rewrite load_chromosomes_run.
  destruct (remote_text net (chrom_sizes_url u)) as [text|e] eqn:Ht; simpl; [|done].
  destruct (parse_chromosome_sizes text) as [items|e] eqn:Hp; simpl; [|done].
  rewrite alloc_list_run. cbn [heap requests extended requested].
  exists text, items. eexists. split_and!; [done|done| |done|lia|done].
  by apply (list_json_alloc (heap w) chromosome_record chromosome_json items).
Qed.


(** ** The catalog of a build *)

Lemma dict_set_fresh {V} (k : string) (v : V) (d : list (string * V)) :
  k ∉ d.*1 -> Py.dict_set k v d = d ++ [(k, v)].
Proof.
  induction d as [|[k' v'] d IH]; csimpl; [done|].
  intros [Hne Hk]%not_elem_of_cons.
  rewrite decide_False by done. by rewrite IH.
Qed.

Lemma catalog_data_fresh (net : remote) (items : list (string * string)) :
  forall v0 v : list (string * assembly),
    NoDup items.*1 -> (forall l, l ∈ items.*1 -> l ∉ v0.*1) ->
    catalog_data net v0 items = Ok v ->
    exists ds,
      Forall2 (fun a d => assembly_data net a.2 = Ok d) items ds /\
      v = v0 ++ zip_with (fun a d => (a.1, d)) items ds.
Proof.
  induction items as [|[label u] items IH]; intros v0 v Hnd Hfresh; csimpl.
  - intros [= <-]. exists []. split; [constructor | by rewrite app_nil_r].
  - apply NoDup_cons in Hnd as [Hlabel Hnd].
    intros (d & Hd & Hv)%bind_Ok.
    rewrite dict_set_fresh in Hv by (apply Hfresh, elem_of_cons; by left).
    apply IH in Hv as (ds & Hds & ->); [|done|].
    + exists (d :: ds). split; [by constructor|]. by rewrite <- app_assoc.
    + intros l Hl. rewrite fmap_app, elem_of_app. csimpl.
      rewrite list_elem_of_singleton. intros [Hin| ->]; [|done].
      apply (Hfresh l); [apply elem_of_cons; by right | done].
Qed.

(** X7. The catalog of a successful build has the labels of the alias
    dictionary, in its order, and under each label the data of the
    assembly of this label: the records of its chromosome sizes under
    "chromosomes" and those of its cytobands under "cytobands". *)
Theorem build_catalog_content
    (net : remote) (aliases : list (string * string)) (w w' : world) (c : catalog) :
  NoDup aliases.*1 ->
  build_genome_object_from net aliases w = (Ok c, w') ->
  c.*1 = aliases.*1 /\
  exists ds : list assembly,
    Forall2 (fun a d =>
               exists sizes bands,
                 remote_text net (chrom_sizes_url a.2) = Ok sizes /\
                 parse_chromosome_sizes sizes = Ok d.1 /\
                 remote_gzip_text net (cytoband_url a.2) = Ok bands /\
                 parse_cytobands bands = Ok d.2) aliases ds /\
    catalog_json (heap w') c
    = Some (JDict (zip_with
                     (fun a d =>
                        (a.1, JDict [("chromosomes", JList (chromosome_json <$> d.1));
                                     ("cytobands", JList (cytoband_json <$> d.2))]))
                     aliases ds)).
Proof.
  intros Hnd Hbuild.
  pose proof (build_spec net aliases w) as Hspec. rewrite Hbuild in Hspec.
  destruct Hspec as (v & keys & Hv & Hcat & _).
  apply catalog_data_fresh in Hv as (ds & Hds & ->);
    [|done|by intros l _ ?%elem_of_nil].
  simpl in Hcat.
  assert (Hzip : forall (B : Type) (f : assembly -> B),
            (fun kv : string * assembly => (kv.1, f kv.2))
              <$> zip_with (fun (a : string * string) d => (a.1, d)) aliases ds
            = zip_with (fun a d => (a.1, f d)) aliases ds).
  { intros B f. clear. revert ds; induction aliases as [|a aliases IH];
      intros [|d ds]; csimpl; [done..|]. by rewrite IH. }
  split_and!.
  - transitivity ((zip_with (fun (a : string * string) (d : assembly) => (a.1, d))
                     aliases ds).*1).
    + clear -Hcat. induction Hcat as [|[k e] [k' d] c v [Hk _] _ IH]; csimpl; [done|].
      simpl in Hk. by rewrite Hk, IH.
    + clear -Hds. induction Hds as [|a d aliases ds _ _ IH]; csimpl; [done|].
      by rewrite IH.
  - exists ds. split.
    + eapply Forall2_impl; [exact Hds|]. intros [label u] [items bands] Hd.
      unfold assembly_data in Hd. simpl in *.
      destruct (remote_text net (chrom_sizes_url u)) as [sizes|] eqn:H1; [|done].
      simpl in Hd.
      destruct (parse_chromosome_sizes sizes) as [items'|] eqn:H2; [|done].
      simpl in Hd.
      destruct (remote_gzip_text net (cytoband_url u)) as [text|] eqn:H3; [|done].
      simpl in Hd. destruct (parse_cytobands text) as [bands'|] eqn:H4; [|done].
      injection Hd as -> ->. by exists sizes, text.
    + rewrite (catalog_json_at _ _ _ Hcat). unfold data_json.
      by rewrite (Hzip json assembly_json).
Qed.

Lemma build_catalog_content_witness :
  (match (build_genome_object (constant_remote "" "") (World [] [])).1 with
   | Ok c => c | Raise _ => []
   end).*1 = ASSEMBLY_ALIAS.*1.
Proof.
  pose (run := build_genome_object (constant_remote "" "") (World [] [])).
  destruct (build_catalog_content (constant_remote "" "") ASSEMBLY_ALIAS
              (World [] []) run.2 (match run.1 with Ok c => c | Raise _ => [] end))
    as [H _].
  - apply (bool_decide_unpack _). vm_compute. exact I.
  - vm_compute. reflexivity.
  - exact H.
Defined.

Lemma assembly_data_is_ok (net : remote) (u : string) :
  is_ok (assembly_data net u) = true <->
  exists sizes bands,
    remote_text net (chrom_sizes_url u) = Ok sizes /\
    is_ok (parse_chromosome_sizes sizes) = true /\
    remote_gzip_text net (cytoband_url u) = Ok bands /\
    is_ok (parse_cytobands bands) = true.
Proof.
  unfold assembly_data. split.
  - destruct (remote_text net (chrom_sizes_url u)) as [sizes|]; [|done]. simpl.
    destruct (parse_chromosome_sizes sizes) as [items|] eqn:Hp; [|done]. simpl.
    destruct (remote_gzip_text net (cytoband_url u)) as [bands|]; [|done]. simpl.
    destruct (parse_cytobands bands) as [recs|] eqn:Hb; [|done]. intros _.
    exists sizes, bands. by rewrite Hp, Hb.
  - intros (sizes & bands & -> & Hp & -> & Hb). simpl.
    destruct (parse_chromosome_sizes sizes); [|done]. simpl.
    by destruct (parse_cytobands bands).
Qed.

Lemma catalog_data_is_ok (net : remote) (items : list (string * string)) :
  forall v, is_ok (catalog_data net v items) = true <->
            forall u, u ∈ items.*2 -> is_ok (assembly_data net u) = true.
Proof.
  induction items as [|[label u] items IH]; intros v; csimpl.
  - split; [by intros _ u' ?%elem_of_nil | done].
  - destruct (assembly_data net u) as [d|e] eqn:Hd; simpl.
    + rewrite IH. split.
      * intros H u' [->|Hu']%elem_of_cons; [by rewrite Hd | by apply H].
      * intros H u' Hu'. apply H, elem_of_cons. by right.
    + split; [done|]. intros H.
      specialize (H u). rewrite Hd in H. apply H, elem_of_cons. by left.
Qed.

(** X8. The build succeeds exactly when, for every assembly that an
    alias refers to, both requests are answered and both texts parse;
    what it then writes never fails. *)
Theorem build_succeeds_iff
    (net : remote) (aliases : list (string * string)) (w : world) :
  (is_ok (build_genome_object_from net aliases w).1 = true <->
   forall u, u ∈ aliases.*2 ->
     exists sizes bands,
       remote_text net (chrom_sizes_url u) = Ok sizes /\
       is_ok (parse_chromosome_sizes sizes) = true /\
       remote_gzip_text net (cytoband_url u) = Ok bands /\
       is_ok (parse_cytobands bands) = true) /\
  is_ok (main_output net aliases w)
  = is_ok (build_genome_object_from net aliases w).1.
Proof.
  assert (Hdata : is_ok (build_genome_object_from net aliases w).1
                  = is_ok (catalog_data net [] aliases)).
  { pose proof (build_spec net aliases w) as Hb.
    destruct (build_genome_object_from net aliases w) as [[c|e] w'].
    - by destruct Hb as (v & keys & -> & _).
    - by destruct Hb as (-> & _). }
  split.
  - rewrite Hdata, catalog_data_is_ok.
    split; intros H u Hu; apply assembly_data_is_ok; by apply H.
  - rewrite Hdata, main_output_spec. by destruct (catalog_data net [] aliases).
Qed.

(** ** A build that fails *)

Lemma fill_cache_fail (net : remote) (cache : catalog) (u : string)
    (w w' : world) (e : exn) :
  fill_cache net cache u w = (Raise e, w') ->
  (remote_text net (chrom_sizes_url u) ≫= parse_chromosome_sizes = Raise e /\
   requests w' = requests w ++ [chrom_sizes_url u]) \/
  (remote_gzip_text net (cytoband_url u) ≫= parse_cytobands = Raise e /\
   requests w' = requests w ++ [chrom_sizes_url u; cytoband_url u]).
Proof.
  unfold fill_cache. destruct (negb (Py.dict_mem u cache)); [|done].
  rewrite bind_run, load_chromosomes_run.
  destruct (remote_text net (chrom_sizes_url u) ≫= parse_chromosome_sizes)
    as [items|e1]; cycle 1.
  { intros [= -> <-]. by left. }
  rewrite alloc_list_run, bind_run, load_cytobands_run.
  destruct (remote_gzip_text net (cytoband_url u) ≫= parse_cytobands)
    as [bands|e2]; cycle 1.
  { intros [= -> <-]. right. split; [done|]. simpl. by rewrite <- app_assoc. }
  by rewrite alloc_list_run.
Qed.

Lemma build_step_fail (net : remote) (reqs0 : list string) (st : catalog * catalog)
    (w w' : world) (v : list (string * assembly)) (label u : string) (e : exn) :
  build_inv net reqs0 st w v ->
  build_step net st (label, u) w = (Raise e, w') ->
  (remote_text net (chrom_sizes_url u) ≫= parse_chromosome_sizes = Raise e /\
   requests w' = requests w ++ [chrom_sizes_url u]) \/
  (remote_gzip_text net (cytoband_url u) ≫= parse_cytobands = Raise e /\
   requests w' = requests w ++ [chrom_sizes_url u; cytoband_url u]).
Proof.
  destruct st as [result cache]. intros Hinv.
  rewrite build_step_halves, bind_run.
  pose proof (fill_cache_spec net reqs0 result cache w v u Hinv) as Hfill.
  destruct (fill_cache net cache u w) as [[cache'|e'] w1] eqn:Hrun.
  - destruct Hfill as (Hinv' & [entry Hu] & _).
    destruct (copy_entry_spec net reqs0 result cache' w1 v label u entry Hinv' Hu)
      as (d & result' & ext & _ & -> & _). done.
  - intros [= -> ->]. by apply fill_cache_fail in Hrun.
Qed.

Lemma build_loop_fail (net : remote) (reqs0 : list string)
    (items : list (string * string)) :
  forall (st : catalog * catalog) (w w' : world) (v : list (string * assembly))
         (e : exn),
    build_inv net reqs0 st w v ->
    build_loop net st items w = (Raise e, w') ->
    exists u, u ∈ items.*2 /\
      ((remote_text net (chrom_sizes_url u) ≫= parse_chromosome_sizes = Raise e /\
        last (requests w') = Some (chrom_sizes_url u)) \/
       (remote_gzip_text net (cytoband_url u) ≫= parse_cytobands = Raise e /\
        last (requests w') = Some (cytoband_url u))).
Proof.
  induction items as [|[label u] items IH]; intros st w w' v e Hinv; [done|].
  cbn [build_loop]. rewrite bind_run.
  pose proof (build_step_spec net reqs0 st w v label u Hinv) as Hstep.
  destruct (build_step net st (label, u) w) as [[st'|e'] w1] eqn:Hrun.
  - destruct Hstep as (d & _ & Hinv' & _).
    intros (u' & Hu' & H)%(IH _ _ _ _ _ Hinv').
    exists u'. split; [apply elem_of_cons; by right | done].
  - intros [= -> ->]. exists u. split; [apply elem_of_cons; by left|].
    apply (build_step_fail _ _ _ _ _ _ _ _ _ Hinv) in Hrun as [[He ->]|[He ->]].
    + left. split; [done | apply last_snoc].
    + right. split; [done|].
      change [chrom_sizes_url u; cytoband_url u]
        with ([chrom_sizes_url u] ++ [cytoband_url u]).
      rewrite app_assoc. apply last_snoc.
Qed.

(** X9. A build that fails stops at its failure: the exception it
    raises is that of its last request or of the parse of the text this
    request returned, for an assembly that an alias refers to, and no
    request follows. *)
Theorem build_fails_fast
    (net : remote) (aliases : list (string * string)) (w w' : world) (e : exn) :
  build_genome_object_from net aliases w = (Raise e, w') ->
  exists u, u ∈ aliases.*2 /\
    ((remote_text net (chrom_sizes_url u) ≫= parse_chromosome_sizes = Raise e /\
      last (requests w') = Some (chrom_sizes_url u)) \/
     (remote_gzip_text net (cytoband_url u) ≫= parse_cytobands = Raise e /\
      last (requests w') = Some (cytoband_url u))).
Proof.
  unfold build_genome_object_from. intros Hrun.
  eapply build_loop_fail; [apply build_inv_init | exact Hrun].
Qed.

Lemma build_fails_fast_witness :
  exists u, u ∈ ASSEMBLY_ALIAS.*2 /\
    ((remote_text (Remote (fun _ => Ok "") (fun _ => Raise DecodeError))
        (chrom_sizes_url u) ≫= parse_chromosome_sizes = Raise DecodeError /\
      last [chrom_sizes_url "hg38"; cytoband_url "hg38"]
      = Some (chrom_sizes_url u)) \/
     (remote_gzip_text (Remote (fun _ => Ok "") (fun _ => Raise DecodeError))
        (cytoband_url u) ≫= parse_cytobands = Raise DecodeError /\
      last [chrom_sizes_url "hg38"; cytoband_url "hg38"]
      = Some (cytoband_url u))).
Proof.
  apply (build_fails_fast (Remote (fun _ => Ok "") (fun _ => Raise DecodeError))
           ASSEMBLY_ALIAS (World [] [])
           (World [OList []] [chrom_sizes_url "hg38"; cytoband_url "hg38"])).
  vm_compute. reflexivity.
Defined.

(** ** The copies are shallow *)

Lemma fill_cache_mono (net : remote) (cache cache' : catalog) (u : string)
    (w w1 : world) :
  fill_cache net cache u w = (Ok cache', w1) ->
  (exists ext, heap w1 = heap w ++ ext) /\
  (forall u' entry, Py.dict_lookup u' cache = Some entry ->
                    Py.dict_lookup u' cache' = Some entry).
Proof.
  unfold fill_cache, Py.dict_mem.
  destruct (Py.dict_lookup u cache) as [entry|] eqn:Hu.
  { rewrite bool_decide_true by done. intros [= <- <-].
    split; [exists []; by rewrite app_nil_r | done]. }
  rewrite bool_decide_false by (by intros [? ?]). cbn [negb].
  rewrite bind_run, load_chromosomes_run.
  destruct (remote_text net (chrom_sizes_url u) ≫= parse_chromosome_sizes)
    as [items|e1]; [|done].
  rewrite alloc_list_run, bind_run, load_cytobands_run.
  destruct (remote_gzip_text net (cytoband_url u) ≫= parse_cytobands)
    as [bands|e2]; [|done].
  rewrite alloc_list_run. intros [= <- <-]. cbn [heap extended requested]. split.
  - eexists. by rewrite <- app_assoc.
  - intros u' entry Hu'. rewrite dict_lookup_set, decide_False; [done|].
    intros ->. congruence.
Qed.

Lemma shares_extend (h ext : list obj) (st : catalog * catalog) (label u : string) :
  shares h st label u -> shares (h ++ ext) st label u.
Proof.
  intros (la & lb & lc & ld & xs & ys & ? & ? & ? & ? & ? & ?).
  exists la, lb, lc, ld, xs, ys. split_and!; [done..| | | |]; by apply lookup_app_l_Some.
Qed.

(** One step of the loop: the new entry shares with the cache, and the
    entries of the other labels stay as they were. *)
Lemma build_step_shares (net : remote) (reqs0 : list string)
    (st st' : catalog * catalog) (w w' : world) (v : list (string * assembly))
    (label u : string) :
  build_inv net reqs0 st w v ->
  build_step net st (label, u) w = (Ok st', w') ->
  shares (heap w') st' label u /\
  forall label' u', label' <> label ->
    shares (heap w) st label' u' -> shares (heap w') st' label' u'.
Proof.
  destruct st as [result cache]. intros Hinv.
  rewrite build_step_halves, bind_run.
  pose proof (fill_cache_spec net reqs0 result cache w v u Hinv) as Hfill.
  destruct (fill_cache net cache u w) as [[cache'|e'] w1] eqn:Hrun; [|done].
  destruct Hfill as (Hinv' & [entry Hu] & _).
  apply fill_cache_mono in Hrun as [[ext Hext] Hmono].
  destruct (inv_cache _ _ _ _ _ Hinv' u entry Hu)
    as (d & _ & lc & ld & -> & (crefs & Hlc & _) & (drefs & Hld & _)).
  simpl in Hlc, Hld.
  rewrite (copy_entry_run result cache' label u w1 lc ld _ _ Hu Hlc Hld).
  intros [= <- <-]. cbn [heap extended]. split.
  - exists (length (heap w1)), (S (length (heap w1))), lc, ld,
      (VRef <$> crefs), (VRef <$> drefs). simpl.
    split_and!; [by rewrite dict_lookup_set, decide_True|done| | | |].
    + by apply lookup_app_l_Some.
    + rewrite lookup_app_r by lia. by rewrite Nat.sub_diag.
    + by apply lookup_app_l_Some.
    + rewrite lookup_app_r by lia.
      by replace (S (length (heap w1)) - length (heap w1))%nat with 1%nat by lia.
  - intros label' u' Hne (la & lb & lc' & ld' & xs & ys & Hr & Hc & H1 & H2 & H3 & H4).
    simpl in Hr, Hc.
    exists la, lb, lc', ld', xs, ys. simpl. rewrite Hext.
    split_and!; [by rewrite dict_lookup_set, decide_False|by apply Hmono| | | |];
      by apply lookup_app_l_Some, lookup_app_l_Some.
Qed.

Lemma build_loop_shares (net : remote) (reqs0 : list string)
    (items : list (string * string)) :
  forall (st : catalog * catalog) (w w' : world) (v : list (string * assembly))
         (done : list (string * string)) (c : catalog),
    build_inv net reqs0 st w v ->
    NoDup (done.*1 ++ items.*1) ->
    (forall label u, (label, u) ∈ done -> shares (heap w) st label u) ->
    build_loop net st items w = (Ok c, w') ->
    exists cache,
      forall label u, (label, u) ∈ done ++ items -> shares (heap w') (c, cache) label u.
Proof.
  induction items as [|[label u] items IH]; intros st w w' v done c Hinv Hnd Hdone.
  - intros [= <- <-]. exists st.2. rewrite app_nil_r. by destruct st.
  - cbn [build_loop]. rewrite bind_run.
    pose proof (build_step_spec net reqs0 st w v label u Hinv) as Hstep.
    destruct (build_step net st (label, u) w) as [[st'|e'] w1] eqn:Hrun; [|done].
    destruct Hstep as (d & _ & Hinv' & _).
    destruct (build_step_shares _ _ _ _ _ _ _ _ _ Hinv Hrun) as [Hnew Hold].
    intros Hloop.
    destruct (IH st' w1 w' _ (done ++ [(label, u)]) c Hinv') as [cache Hall].
    + rewrite fmap_app, <- app_assoc. exact Hnd.
    + intros label' u' [Hin|Hin]%elem_of_app.
      * apply Hold; [|by apply Hdone].
        intros ->. csimpl in Hnd. apply NoDup_app in Hnd as (_ & Hdisj & _).
        apply (Hdisj label); [|apply elem_of_cons; by left].
        apply list_elem_of_fmap. by exists (label, u').
      * apply list_elem_of_singleton in Hin as [= -> ->]. exact Hnew.
    + exact Hloop.
    + exists cache. intros label' u' Hin. apply Hall.
      by rewrite <- app_assoc.
Qed.

Lemma read_list_insert (h : list obj) (l : nat) (items : list val) (r : nat) (o : obj) :
  h !! l = Some (OList items) -> r <> l ->
  read_list (<[r := o]> h) (VRef l) = mapM (read_record (<[r := o]> h)) items.
Proof.
  intros Hl Hne. unfold read_list. rewrite list_lookup_insert_ne by done.
  by rewrite Hl.
Qed.

(** X10. The copies are shallow.  In the catalog of a successful build
    the chromosome lists of two aliases of one assembly are list objects
    with the same items, references to the same records, and so are
    their cytoband lists; whatever is put in the place of a record, the
    two aliases read the same sequence. *)
Theorem alias_lists_hold_same_records
    (net : remote) (aliases : list (string * string)) (w w' : world)
    (c : catalog) (a b u : string) :
  NoDup aliases.*1 ->
  build_genome_object_from net aliases w = (Ok c, w') ->
  (a, u) ∈ aliases -> (b, u) ∈ aliases ->
  exists (ca ba cb bb : loc) (xs ys : list val),
    Py.dict_lookup a c = Some [("chromosomes", VRef ca); ("cytobands", VRef ba)] /\
    Py.dict_lookup b c = Some [("chromosomes", VRef cb); ("cytobands", VRef bb)] /\
    heap w' !! ca = Some (OList xs) /\ heap w' !! cb = Some (OList xs) /\
    heap w' !! ba = Some (OList ys) /\ heap w' !! bb = Some (OList ys) /\
    forall (r : loc) (o : obj), r ∉ [ca; ba; cb; bb] ->
      read_list (<[r := o]> (heap w')) (VRef ca)
      = read_list (<[r := o]> (heap w')) (VRef cb) /\
      read_list (<[r := o]> (heap w')) (VRef ba)
      = read_list (<[r := o]> (heap w')) (VRef bb).
Proof.
  intros Hnd Hbuild Ha Hb. unfold build_genome_object_from in Hbuild.
  destruct (build_loop_shares net (requests w) aliases ([], []) w w' [] [] c
              (build_inv_init net w)) as [cache Hall];
    [done | by intros ? ? ?%elem_of_nil | done |].
  destruct (Hall a u Ha) as (ca & ba & lc & ld & xs & ys & Hca & Hcu & H1 & H2 & H3 & H4).
  destruct (Hall b u Hb)
    as (cb & bb & lc' & ld' & xs' & ys' & Hcb & Hcu' & H1' & H2' & H3' & H4').
  simpl in *. rewrite Hcu in Hcu'. injection Hcu' as <- <-.
  rewrite H1 in H1'. injection H1' as <-. rewrite H3 in H3'. injection H3' as <-.
  exists ca, ba, cb, bb, xs, ys. split_and!; [done..|].
  intros r o Hr. rewrite !not_elem_of_cons in Hr. destruct Hr as (? & ? & ? & ? & _).
  split.
  - transitivity (mapM (read_record (<[r := o]> (heap w'))) xs);
      [|symmetry]; by apply read_list_insert.
  - transitivity (mapM (read_record (<[r := o]> (heap w'))) ys);
      [|symmetry]; by apply read_list_insert.
Qed.

Lemma alias_lists_hold_same_records_witness :
  exists (ca cb : loc) (xs : list val),
    heap (build_genome_object
            (constant_remote (tsv [["chr1"; "248956422"]])
               (tsv [["chr1"; "0"; "2300000"; "p36.33"; "gneg"]]))
            (World [] [])).2 !! ca = Some (OList xs) /\
    heap (build_genome_object
            (constant_remote (tsv [["chr1"; "248956422"]])
               (tsv [["chr1"; "0"; "2300000"; "p36.33"; "gneg"]]))
            (World [] [])).2 !! cb = Some (OList xs).
Proof.
  pose (net := constant_remote (tsv [["chr1"; "248956422"]])
                 (tsv [["chr1"; "0"; "2300000"; "p36.33"; "gneg"]])).
  pose (run := build_genome_object net (World [] [])).
  destruct (alias_lists_hold_same_records net ASSEMBLY_ALIAS (World [] [])
              run.2 (match run.1 with Ok c => c | Raise _ => [] end)
              "hg38" "grch38" "hg38")
    as (ca & ba & cb & bb & xs & ys & _ & _ & H1 & H2 & _).
  - apply (bool_decide_unpack _). vm_compute. exact I.
  - vm_compute. reflexivity.
  - apply (bool_decide_unpack _). vm_compute. exact I.
  - apply (bool_decide_unpack _). vm_compute. exact I.
  - exists ca, cb, xs. exact (conj H1 H2).
Defined.

(** ** Concatenated inputs *)

Lemma cytoband_line_from (cytobands : list cytoband) (line : string) :
  cytoband_line cytobands line
  = match cytoband_line [] line with
    | Ok recs => Ok (cytobands ++ recs)
    | Raise e => Raise e
    end.
Proof.
  unfold cytoband_line. destruct (Py.is_empty (Py.strip line)).
  { simpl. by rewrite app_nil_r. }
  destruct (Py.split Py.TAB line) as [|c [|s [|e [|n [|st [|? ?]]]]]]; try done.
  destruct (Py.int s); [|done]. by destruct (Py.int e).
Qed.

Lemma cytoband_lines_from (cytobands : list cytoband) (lines : list string) :
  cytoband_lines cytobands lines
  = match cytoband_lines [] lines with
    | Ok recs => Ok (cytobands ++ recs)
    | Raise e => Raise e
    end.
Proof.
  revert cytobands; induction lines as [|line lines IH]; intros bs; simpl.
  - by rewrite app_nil_r.
  - rewrite (cytoband_line_from bs line).
    destruct (cytoband_line [] line) as [r0|]; simpl; [|done].
    rewrite (IH (bs ++ r0)), (IH r0).
    destruct (cytoband_lines [] lines); [|done]. by rewrite app_assoc.
Qed.

(** X11. Both loops read concatenated lines as one would expect.  The
    cytobands of the lines of two inputs, one after the other, are the
    cytobands of the first followed by those of the second.  For the
    chromosome sizes the second input overrides the first: a label has
    the size that the second input gives it, and otherwise the one of
    the first. *)
Theorem loops_over_concatenated_lines :
  (forall (l1 l2 : list string) (r1 r2 : list cytoband),
     cytoband_lines [] l1 = Ok r1 -> cytoband_lines [] l2 = Ok r2 ->
     cytoband_lines [] (l1 ++ l2) = Ok (r1 ++ r2)) /\
  (forall (l1 l2 : list string) (m1 m2 : list (string * Z)),
     chrom_sizes_lines [] l1 = Ok m1 -> chrom_sizes_lines [] l2 = Ok m2 ->
     exists m,
       chrom_sizes_lines [] (l1 ++ l2) = Ok m /\
       forall n, Py.dict_lookup n m
                 = match Py.dict_lookup n m2 with
                   | Some z => Some z
                   | None => Py.dict_lookup n m1
                   end).
Proof.
  split.
  - intros l1 l2 r1 r2 H1 H2. rewrite cytoband_lines_app, H1. simpl.
    by rewrite cytoband_lines_from, H2.
  - intros l1 l2 m1 m2 H1 H2. rewrite chrom_sizes_lines_app, H1. simpl.
    rewrite chrom_sizes_lines_entries in H2 |- *.
    destruct (mapM line_entry l2) as [es|]; [|done]. simpl in *.
    injection H2 as <-. eexists. split; [done|].
    intros n. rewrite !foldl_assign_lookup. simpl.
    by destruct (last (assigned n es)).
Qed.

Lemma loops_over_concatenated_lines_witness :
  cytoband_lines []
    (Py.splitlines (tsv [["chr2"; "0"; "5"; "p1"; "gneg"]])
     ++ Py.splitlines (tsv [["chr1"; "0"; "7"; "p2"; "gpos"]]))
  = Ok ([Cytoband "chr2" 0 5 "p1" "gneg"] ++ [Cytoband "chr1" 0 7 "p2" "gpos"]).
Proof.
  destruct loops_over_concatenated_lines as [H _]. apply H; reflexivity.
Defined.
